(** * Hazard / air-quality impact monitor: the RQ3 forecasting Lambda

    A shallow embedding of [src/Lambda/RQ3/lambda_function.py]: the
    SGD-trained linear model [SimpleLinearTimeModel], the daily merged
    series built with pandas, the three-day rollout, the cold-start
    fallback, and the insert-if-absent helper [_insert_timeseries].

    Conventions of the embedding.
    - Python floats are read as exact rationals ([Q]); rounding, NaN and
      infinities are outside the model.  Float equalities are therefore
      equalities of the unrounded expressions.
    - A calendar date is a day number ([Z]); a timestamp is a number of
      seconds ([Z]).  [pd.to_datetime] of a date is midnight of that day,
      [.date()] / [.dt.date] drops the time of day.
    - The two SQL queries run inside the store; the embedding starts from
      the rows they return.
    - Python's [random] module is not part of the repository: the generator
      state and [random.randrange] are parameters of the development. *)

From Stdlib Require Import ZArith QArith Qminmax Lia Lqa List Sorted Permutation String.
From stdpp Require Import gmap sorting.
Import ListNotations.

Local Open Scope Z_scope.

(** ** Exceptions and results *)

Inductive exn : Type :=
| UnboundLocalError   (* a local variable read before any assignment *)
| IndexError          (* [iloc[-1]] on an empty frame, list index out of range *)
| ZeroDivisionError
| UndefinedTable.     (* a statement on a table that does not exist *)

Inductive result (A : Type) : Type :=
| Ok (a : A)
| Raise (e : exn).
Arguments Ok {A} a.
Arguments Raise {A} e.

Definition result_bind {A B} (r : result A) (k : A -> result B) : result B :=
  match r with
  | Ok a => k a
  | Raise e => Raise e
  end.

Definition of_option {A} (e : exn) (o : option A) : result A :=
  match o with
  | Some a => Ok a
  | None => Raise e
  end.

(** ** Dates and timestamps *)

Definition seconds_per_day : Z := 86400.

(** [pd.to_datetime(d)] for a date [d]: midnight of that day. *)
Definition to_datetime (d : Z) : Z := d * seconds_per_day.

(** [ts.date()]: the calendar day of a timestamp. *)
Definition date_of (ts : Z) : Z := ts / seconds_per_day.

(** [ts + timedelta(days=i)]. *)
Definition add_days (ts : Z) (i : Z) : Z := ts + i * seconds_per_day.

(** ** Float lists *)

(** Python's [sum]: a left fold starting from 0. *)
Definition py_sum (xs : list Q) : Q := fold_left Qplus xs 0%Q.

(** [sum(xs) / len(xs)], also the [mean()] of a pandas group. *)
Definition mean (xs : list Q) : Q := (py_sum xs / inject_Z (Z.of_nat (length xs)))%Q.

(** Python's [max(a, b)]: [b] only when [b > a]. *)
Definition py_max (a b : Q) : Q := if Qle_bool b a then a else b.

(** ** SimpleLinearTimeModel *)

Record weights : Type := Weights { w0 : Q; w1 : Q; w2 : Q }.

Record SimpleLinearTimeModel : Type := Model { w : weights; lr : Q }.

(** [__init__(self, lr)] *)
Definition init_model (rate : Q) : SimpleLinearTimeModel :=
  {| w := Weights 0 (1 # 2) (1 # 2); lr := rate |}.

Definition predict_w (ws : weights) (aqi_t fire_t : Q) : Q :=
  (w0 ws + w1 ws * aqi_t + w2 ws * fire_t)%Q.

Definition predict_one (m : SimpleLinearTimeModel) (aqi_t fire_t : Q) : Q :=
  predict_w (w m) aqi_t fire_t.

(** [predict_batch]: one prediction per pair of [zip(aqi_list, fire_list)]. *)
Definition predict_batch (m : SimpleLinearTimeModel) (aqi_list fire_list : list Q)
    : list Q :=
  (fun p => predict_one m p.1 p.2) <$> zip aqi_list fire_list.

(** One pass of the loop body of [sgd_train] on the sample [(a, f, y)]. *)
Definition sgd_update (m : SimpleLinearTimeModel) (a f y : Q) : SimpleLinearTimeModel :=
  let pred := predict_one m a f in
  let err := (pred - y)%Q in
  let grad_w0 := (2 * err)%Q in
  let grad_w1 := (2 * err * a)%Q in
  let grad_w2 := (2 * err * f)%Q in
  {| w := {| w0 := (w0 (w m) - lr m * grad_w0)%Q;
             w1 := (w1 (w m) - lr m * grad_w1)%Q;
             w2 := (w2 (w m) - lr m * grad_w2)%Q |};
     lr := lr m |}.

(** The update of one epoch once the index [i] is drawn (the three reads
    are in range in every use below). *)
Definition sgd_visit (x_aqi x_fire y_next : list Q) (acc : SimpleLinearTimeModel)
    (i : nat) : SimpleLinearTimeModel :=
  sgd_update acc (nth i x_aqi 0%Q) (nth i x_fire 0%Q) (nth i y_next 0%Q).

(** ** The random source

    [random.seed], the generator state and [random.randrange], with the
    one fact of its contract that the code relies on: [randrange(n)] lies in
    [range(n)]. *)

Class RandomSource : Type := {
  rng : Type;
  seed : Z -> rng;
  randrange : rng -> nat -> nat * rng;
  randrange_lt : forall (g : rng) (n : nat), (0 < n)%nat -> ((randrange g n).1 < n)%nat
}.

(** A small linear congruential generator, used to run the development on
    concrete inputs. *)
Definition lcg_next (s : Z) : Z := (1103515245 * s + 12345) mod 2147483648.

Definition lcg_randrange (s : Z) (n : nat) : nat * Z :=
  (Z.to_nat (lcg_next s mod Z.of_nat n), lcg_next s).

Section Training.

Context {RS : RandomSource}.

(** [random.seed(42)] at module load. *)
Definition module_load : rng := seed 42.

(** The [for ep in range(epochs)] loop.  Indexing a list out of range
    raises [IndexError]. *)
Fixpoint sgd_loop (epochs n : nat) (x_aqi x_fire y_next : list Q)
    (m : SimpleLinearTimeModel) (g : rng) : result (SimpleLinearTimeModel * rng) :=
  match epochs with
  | O => Ok (m, g)
  | S ep =>
      let (i, g') := randrange g n in
      match x_aqi !! i, x_fire !! i, y_next !! i with
      | Some a, Some f, Some y =>
          sgd_loop ep n x_aqi x_fire y_next (sgd_update m a f y) g'
      | _, _, _ => Raise IndexError
      end
  end.

(** The indices that [epochs] calls of [random.randrange(n)] return from
    the generator state [g]. *)
Fixpoint draws (epochs n : nat) (g : rng) : list nat :=
  match epochs with
  | O => []
  | S ep => let (i, g') := randrange g n in i :: draws ep n g'
  end.

(** The generator state after those calls. *)
Fixpoint advance (epochs n : nat) (g : rng) : rng :=
  match epochs with
  | O => g
  | S ep => let (i, g') := randrange g n in advance ep n g'
  end.

Definition sgd_train (m : SimpleLinearTimeModel) (g : rng)
    (x_aqi x_fire y_next : list Q) (epochs : nat)
    : result (SimpleLinearTimeModel * rng) :=
  let n := length y_next in
  if (n =? 0)%nat then Ok (m, g)
  else sgd_loop epochs n x_aqi x_fire y_next m g.

End Training.

(** ** Feature Builder: the daily merged series *)

(** A two-column frame: a date (or timestamp) and a reading. *)
Abbreviation frame := (list (Z * Q)).

(** [fire_df['date'] = pd.to_datetime(fire_df['acq_date']).dt.date] *)
Definition fire_dates (fire_df : frame) : frame :=
  (fun r => (date_of (to_datetime r.1), r.2)) <$> fire_df.

(** [aqi_df['date'] = pd.to_datetime(aqi_df['aqi_date']).dt.date] *)
Definition aqi_dates (aqi_df : frame) : frame :=
  (fun r => (date_of r.1, r.2)) <$> aqi_df.

(** The group keys of [groupby('date')]: the distinct dates, ascending. *)
Fixpoint insert_key (d : Z) (ks : list Z) : list Z :=
  match ks with
  | [] => [d]
  | k :: ks' =>
      if decide (d < k) then d :: k :: ks'
      else if decide (d = k) then k :: ks'
      else k :: insert_key d ks'
  end.

Definition group_keys (ds : list Z) : list Z := foldr insert_key [] ds.

(** The readings of one group. *)
Definition group_values (d : Z) (df : frame) : list Q :=
  (filter (fun r => r.1 = d) df).*2.

(** [df.groupby('date')[col].mean().reset_index()] *)
Definition groupby_mean (df : frame) : frame :=
  (fun d => (d, mean (group_values d df))) <$> group_keys (df.*1).

(** [series.max()] of a date column; [None] for the empty series. *)
Definition series_max (ds : list Z) : option Z :=
  match ds with
  | [] => None
  | d :: ds' => Some (foldl Z.max d ds')
  end.

(** A row of the merged frame [df]. *)
Record day_row : Type := DayRow { date : Z; aqi : Q; fire_intensity : Q }.

(** [pd.merge(left, right, on='date', how='left')]: every left row, in
    order, once per matching right row, or once with a missing value. *)
Definition merge_left (left right : frame) : list (Z * Q * option Q) :=
  l ← left;
  match filter (fun r => r.1 = l.1) right with
  | [] => [(l.1, l.2, None)]
  | ms => (fun r => (l.1, l.2, Some r.2)) <$> ms
  end.

(** [df['fire_intensity'].fillna(0.0)] *)
Definition fillna (r : Z * Q * option Q) : day_row :=
  {| date := r.1.1; aqi := r.1.2; fire_intensity := default 0%Q r.2 |}.

Definition date_le (a b : day_row) : Prop := date a <= date b.

#[global] Instance date_le_dec (a b : day_row) : Decision (date_le a b).
Proof. unfold date_le. apply _. Defined.

(** [df.sort_values('date')] *)
Definition sort_values (df : list day_row) : list day_row := merge_sort date_le df.

(** Step 4 of the handler, from the two query results to [df]. *)
Definition fire_daily_of (fire_df : frame) : frame :=
  match fire_df with
  | [] => []
  | _ => groupby_mean (fire_dates fire_df)
  end.

Definition aqi_daily_of (aqi_df : frame) : frame :=
  match aqi_df with
  | [] => []
  | _ => groupby_mean (aqi_dates aqi_df)
  end.

Definition merged_series (fire_df aqi_df : frame) : list day_row :=
  sort_values (fillna <$> merge_left (aqi_daily_of aqi_df) (fire_daily_of fire_df)).

(** ** Persistence Sink *)

(** A row of [dv.air_quality_predictions] ([id] and [created_at] are set
    by the store). *)
Record prediction : Type := Prediction {
  prediction_date : Z;
  fire_event_timestamp : Z;
  predicted_aqi : Q
}.

(** The loop of [_insert_timeseries] over [zip(dates, aqi_values)]. *)
Fixpoint insert_loop (existing_dates : gset Z) (fire_event_time : Z)
    (points : list (Z * Q)) (table : list prediction) : list prediction :=
  match points with
  | [] => table
  | (d, a) :: rest =>
      if decide (d ∈ existing_dates)
      then insert_loop existing_dates fire_event_time rest table
      else insert_loop ({[d]} ∪ existing_dates) fire_event_time rest
             (table ++ [Prediction d fire_event_time a])
  end.

(** [_insert_timeseries] on the rows of the prediction table. *)
Definition insert_rows (table : list prediction) (dates : list Z)
    (fire_event_time : Z) (aqi_values : list Q) : list prediction :=
  let existing_dates : gset Z := list_to_set (prediction_date <$> table) in
  insert_loop existing_dates fire_event_time (zip dates aqi_values) table.

(** ** Forecast Driver: the pure steps *)

(** The training lists built by the loop over [range(len(df) - 1)]:
    features from day [i], target from day [i + 1]. *)
Definition x_aqi_of (df : list day_row) : list Q := take (length df - 1) (aqi <$> df).
Definition x_fire_of (df : list day_row) : list Q := take (length df - 1) (fire_intensity <$> df).
Definition y_next_of (df : list day_row) : list Q := drop 1 (aqi <$> df).

(** [sum(xs) / len(xs)] with Python's division by zero. *)
Definition average (xs : list Q) : result Q :=
  match xs with
  | [] => Raise ZeroDivisionError
  | _ => Ok (mean xs)
  end.

(** The scaling factor [max(1.0, sum(xs) / len(xs))]. *)
Definition scale_factor (xs : list Q) : result Q :=
  result_bind (average xs) (fun m => Ok (py_max 1 m)).

Definition scaled (xs : list Q) (k : Q) : list Q := (fun x => x / k)%Q <$> xs.

(** Lines 149-152: the weights in original units. *)
Definition unscale (mean_aqi mean_fire : Q) (ws : weights) : weights :=
  {| w0 := (mean_aqi * w0 ws)%Q;
     w1 := w1 ws;
     w2 := ((mean_aqi / mean_fire) * w2 ws)%Q |}.

(** [df[df['date'] <= last_fire_date.date()].iloc[-1]] *)
Definition seed_row (df : list day_row) (last_fire_date : Z) : result day_row :=
  of_option IndexError (last (filter (fun r => date r <= date_of last_fire_date) df)).

Definition forecast_days : Z := 3.

(** The state of the rollout loop: [forecast_dates], [forecast_aqi],
    [current_aqi]. *)
Definition rollout_state : Type := list Z * list Q * Q.

(** The body of [for i in range(1, forecast_days + 1)]. *)
Definition rollout_step (ws : weights) (last_date : Z) (future_fire : Q)
    (st : rollout_state) (i : Z) : rollout_state :=
  let '(forecast_dates, forecast_aqi, current_aqi) := st in
  let pred := (w0 ws + w1 ws * current_aqi + w2 ws * future_fire)%Q in
  let pred := py_max 0 pred in
  (forecast_dates ++ [date_of (add_days last_date i)], forecast_aqi ++ [pred], pred).

Definition rollout (ws : weights) (last_date : Z) (last_aqi future_fire : Q) : rollout_state :=
  foldl (rollout_step ws last_date future_fire) ([], [], last_aqi) (seqZ 1 forecast_days).

(** The fallback forecast of lines 106-112, for a known [last_date]. *)
Definition fire_weight : Q := 5.

Definition fallback_last_fire (fire_daily : frame) : Q :=
  match last fire_daily with
  | Some r => r.2
  | None => 0%Q
  end.

Definition fallback_dates (last_date : Z) : list Z :=
  (fun i => date_of (add_days last_date i)) <$> seqZ 1 3.

Definition fallback_aqi (fire_daily : frame) : list Q :=
  replicate 3 (fallback_last_fire fire_daily * fire_weight)%Q.

(** ** The handler *)

(** What the handler returns: [statusCode] and one of the two messages,
    "Fallback forecast stored (insufficient history)." or
    "3-day AQI time series forecast stored. Dates: ..." *)
Inductive message : Type :=
| FallbackStored
| ForecastStored (forecast_dates : list Z).

Record response : Type := Response { statusCode : Z; body : message }.

(** Ghost record of one invocation: the weights left by [sgd_train] and the
    arguments of each call of [_insert_timeseries].  No step reads it. *)
Inductive event : Type :=
| Trained (ws : weights)
| Handed (dates : list Z) (fire_event_time : Z) (aqi_values : list Q).

Section Handler.

Context {RS : RandomSource}.

Record world : Type := World {
  fires : frame;                (* rows returned by [fire_query] *)
  air_quality : frame;          (* rows returned by [aqi_query] *)
  air_quality_predictions : option (list prediction);
                                (* [dv.air_quality_predictions]; [None]: no such table *)
  clock : nat -> Z;             (* the readings of [pd.Timestamp.now()] still to
                                   come, in call order *)
  connections : nat;            (* calls of [psycopg2.connect] *)
  conn_open : bool;
  cursor_open : bool;
  random_state : rng;           (* the process-wide generator *)
  trace : list event
}.

Definition M (A : Type) : Type := world -> result A * world.

Definition ret {A} (a : A) : M A := fun s => (Ok a, s).

Definition bind {A B} (c : M A) (k : A -> M B) : M B :=
  fun s =>
    match c s with
    | (Ok a, s') => k a s'
    | (Raise e, s') => (Raise e, s')
    end.

Definition lift {A} (r : result A) : M A := fun s => (r, s).

Definition gets {A} (f : world -> A) : M A := fun s => (Ok (f s), s).

Definition modify (f : world -> world) : M unit := fun s => (Ok tt, f s).

End Handler.

Notation "'let!' x ':=' c 'in' k" := (bind c (fun x => k))
  (at level 10, x pattern, c at level 100, k at level 200).
Notation "c ';;;' k" := (bind c (fun _ => k))
  (at level 100, k at level 200, right associativity).

Section Steps.

Context {RS : RandomSource}.

(** [psycopg2.connect(...)], [conn.cursor()], [cursor.close()],
    [conn.close()]. *)
Definition connect : M unit :=
  modify (fun s =>
    World (fires s) (air_quality s) (air_quality_predictions s) (clock s)
          (S (connections s)) true (cursor_open s) (random_state s) (trace s)).

Definition open_cursor : M unit :=
  modify (fun s =>
    World (fires s) (air_quality s) (air_quality_predictions s) (clock s)
          (connections s) (conn_open s) true (random_state s) (trace s)).

Definition cursor_close : M unit :=
  modify (fun s =>
    World (fires s) (air_quality s) (air_quality_predictions s) (clock s)
          (connections s) (conn_open s) false (random_state s) (trace s)).

Definition conn_close : M unit :=
  modify (fun s =>
    World (fires s) (air_quality s) (air_quality_predictions s) (clock s)
          (connections s) false (cursor_open s) (random_state s) (trace s)).

Definition set_predictions (t : list prediction) : M unit :=
  modify (fun s =>
    World (fires s) (air_quality s) (Some t) (clock s)
          (connections s) (conn_open s) (cursor_open s) (random_state s) (trace s)).

Definition set_random_state (g : rng) : M unit :=
  modify (fun s =>
    World (fires s) (air_quality s) (air_quality_predictions s) (clock s)
          (connections s) (conn_open s) (cursor_open s) g (trace s)).

Definition record (e : event) : M unit :=
  modify (fun s =>
    World (fires s) (air_quality s) (air_quality_predictions s) (clock s)
          (connections s) (conn_open s) (cursor_open s) (random_state s)
          (trace s ++ [e])).

(** [pd.Timestamp.now()]: every call takes the next reading of the clock,
    so two calls in one invocation need not agree. *)
Definition later (c : nat -> Z) : nat -> Z := fun k => c (S k).

Definition now : M Z :=
  fun s =>
    (Ok (clock s 0%nat),
     World (fires s) (air_quality s) (air_quality_predictions s) (later (clock s))
           (connections s) (conn_open s) (cursor_open s) (random_state s) (trace s)).

(** [CREATE TABLE IF NOT EXISTS dv.air_quality_predictions ...; commit] *)
Definition _create_prediction_table : M unit :=
  let! t := gets air_quality_predictions in
  match t with
  | Some _ => ret tt
  | None => set_predictions []
  end.

(** [_insert_timeseries(cursor, conn, dates, fire_event_time, aqi_values)] *)
Definition _insert_timeseries (dates : list Z) (fire_event_time : Z)
    (aqi_values : list Q) : M unit :=
  record (Handed dates fire_event_time aqi_values) ;;;
  let! t := gets air_quality_predictions in
  let! table := lift (of_option UndefinedTable t) in
  set_predictions (insert_rows table dates fire_event_time aqi_values).

(** [model.sgd_train(...)] on the process-wide generator. *)
Definition train (m : SimpleLinearTimeModel) (x_aqi x_fire y_next : list Q)
    (epochs : nat) : M SimpleLinearTimeModel :=
  let! g := gets random_state in
  let! r := lift (sgd_train m g x_aqi x_fire y_next epochs) in
  set_random_state r.2 ;;;
  record (Trained (w r.1)) ;;;
  ret r.1.

(** [pd.to_datetime(fire_df['acq_date'].max()) if not fire_df.empty
    else pd.Timestamp.now()] *)
Definition fire_event_time_of (fire_df : frame) : M Z :=
  match series_max (fire_df.*1) with
  | Some d => ret (to_datetime d)
  | None => now
  end.

(** The local [last_fire_date]: bound only in the branch taken when
    [fire_df] is not empty. *)
Definition last_fire_date_of (fire_df : frame) : option Z :=
  match fire_df with
  | [] => None
  | _ => to_datetime <$> series_max ((fire_daily_of fire_df).*1)
  end.

(** Lines 104-120. *)
Definition fallback_path (fire_df : frame) : M response :=
  let fire_daily := fire_daily_of fire_df in
  let! last_date :=
    match last fire_daily with
    | Some r => ret (to_datetime r.1)
    | None => now
    end in
  let forecast_dates := fallback_dates last_date in
  let forecast_aqi := fallback_aqi fire_daily in
  _create_prediction_table ;;;
  let! fire_event_time := fire_event_time_of fire_df in
  _insert_timeseries forecast_dates fire_event_time forecast_aqi ;;;
  cursor_close ;;;
  conn_close ;;;
  ret (Response 200 FallbackStored).

(** Lines 122-190. *)
Definition model_path (fire_df : frame) (df : list day_row) : M response :=
  let x_aqi := x_aqi_of df in
  let x_fire := x_fire_of df in
  let y_next := y_next_of df in
  let! mean_aqi := lift (scale_factor x_aqi) in
  let! mean_fire := lift (scale_factor x_fire) in
  let x_aqi_scaled := scaled x_aqi mean_aqi in
  let x_fire_scaled := scaled x_fire mean_fire in
  let y_scaled := scaled y_next mean_aqi in
  let! model := train (init_model (1 # 1000)) x_aqi_scaled x_fire_scaled y_scaled 4000 in
  let ws := unscale mean_aqi mean_fire (w model) in
  let! last_fire_date := lift (of_option UnboundLocalError (last_fire_date_of fire_df)) in
  let! last_row := lift (seed_row df last_fire_date) in
  let last_aqi := aqi last_row in
  let last_fire_intensity := fire_intensity last_row in
  let last_date := last_fire_date in
  let future_fire := last_fire_intensity in
  let '(forecast_dates, forecast_aqi, _) := rollout ws last_date last_aqi future_fire in
  _create_prediction_table ;;;
  let! fire_event_time := fire_event_time_of fire_df in
  _insert_timeseries forecast_dates fire_event_time forecast_aqi ;;;
  cursor_close ;;;
  conn_close ;;;
  ret (Response 200 (ForecastStored forecast_dates)).

Definition lambda_handler : M response :=
  connect ;;;
  open_cursor ;;;
  let! fire_df := gets fires in
  let! aqi_df := gets air_quality in
  let df := merged_series fire_df aqi_df in
  if decide (length df < 5)%nat
  then fallback_path fire_df
  else model_path fire_df df.

(** A fresh process: the module is loaded, nothing has run yet. *)
Definition fresh_process (fire_df aqi_df : frame)
    (table : option (list prediction)) (t : nat -> Z) : world :=
  World fire_df aqi_df table t 0 false false module_load [].

(** The events one invocation adds to the trace. *)
Definition invocation_events (s : world) : list event :=
  drop (length (trace s)) (trace (lambda_handler s).2).

End Steps.

#[global] Arguments sgd_train : simpl never.

(** The generator above as a random source. *)
Lemma lcg_randrange_lt (s : Z) (n : nat) :
  (0 < n)%nat -> ((lcg_randrange s n).1 < n)%nat.
Proof.
  intros Hn. unfold lcg_randrange. simpl.
  assert (H : 0 <= lcg_next s mod Z.of_nat n < Z.of_nat n)
    by (apply Z.mod_pos_bound; lia).
  lia.
Qed.

#[global] Instance lcg : RandomSource :=
  {| rng := Z; seed := fun z => z; randrange := lcg_randrange;
     randrange_lt := lcg_randrange_lt |}.

(** The scenario of the specification: five days of AQI, fire detections on
    the third and fourth day. *)
Definition jan1 : Z := 20454.

(** A clock that reads [t] first and one second more at every later call. *)
Definition ticking (t : Z) : nat -> Z := fun k => t + Z.of_nat k.

Definition scenario_aqi : frame :=
  [ (to_datetime jan1 + 3600, 50%Q); (to_datetime (jan1 + 1) + 7200, 55%Q);
    (to_datetime (jan1 + 2), 52%Q); (to_datetime (jan1 + 3) + 86399, 60%Q);
    (to_datetime (jan1 + 4), 58%Q) ].

Definition scenario_fires : frame :=
  [ (jan1 + 2, 8%Q); (jan1 + 2, 12%Q); (jan1 + 3, 10%Q) ].

(** * The earthquake ingestion Lambda

    [src/Lambda/API_Earthquakes/lambda_function.py].  The calls that leave
    the process (the database driver, the HTTP request, the upload, the XML
    parser) are read as their outcomes: each either returns or raises, and
    the handler's three [try] blocks decide what happens next.  The text of
    the returned message is not modelled, only [status]. *)

Module Earthquakes.

(** The Tokyo bounding box. *)
Definition LAT_MIN : Q := 33.
Definition LAT_MAX : Q := 37.
Definition LON_MIN : Q := 137.
Definition LON_MAX : Q := 141.

(** What [.get('text', '')] finds in a description that is a dict. *)
Inductive text_field : Type :=
| TextAbsent                 (* no ['text'] key: the default [''] *)
| TextNull                   (* an empty [<text/>]: [None] *)
| TextString (t : string)    (* plain text *)
| TextOther.                 (* a dict or a list (attributes, children, repeats) *)

(** What [event.get('description', {})] finds. *)
Inductive description_field : Type :=
| DescriptionAbsent                     (* no ['description'] key: the default [{}] *)
| DescriptionDict (text : text_field)   (* an element with children: a dict *)
| DescriptionOther.                     (* an empty element ([None]), a repeated one
                                           (a list) or bare text (a [str]): [.get]
                                           raises [AttributeError] *)

(** One element that [for event in events] visits, as the loop reads it.
    A field is [None] when the lookup or the conversion that reads it
    raises.  (For a feed with a single [<event>] the parser yields a dict and
    the loop visits its keys: strings, on which both coordinate reads
    raise.) *)
Record event : Type := Event {
  latitude_value : option Q;     (* [float(event['origin']['latitude']['value'])] *)
  longitude_value : option Q;    (* [float(event['origin']['longitude']['value'])] *)
  magnitude_value : option Q;    (* [float(event['magnitude']['mag']['value'])] *)
  description : description_field;
  time_value : option Z;         (* [fromisoformat(event['origin']['time']['value'])] *)
  publicID : option string;      (* [event['@publicID']] *)
  depth_value : option Q         (* [float(event['origin']['depth']['value'])] *)
}.

(** A row of the [earthquakes] table ([id] is set by the store). *)
Record quake : Type := Quake {
  event_id : string;
  title : string;
  magnitude : Q;
  place : option string;         (* [None]: Python's [None], stored as NULL *)
  time : Z;
  latitude : Q;
  longitude : Q;
  depth : Q
}.

(** What the handler meets outside the process. *)
Record feed : Type := Feed {
  connect_ok : bool;             (* [psycopg2.connect] returns *)
  cursor_ok : bool;              (* [conn.cursor()] returns *)
  create_ok : bool;              (* [CREATE TABLE IF NOT EXISTS] executes *)
  get_ok : bool;                 (* [requests.get] returns a response *)
  status_code : Z;               (* [response.status_code] *)
  put_ok : bool;                 (* the S3 client and [put_object] succeed *)
  events : option (list event);  (* [xmltodict.parse] and the lookup of
                                    [data['q:quakeml']['eventParameters']['event']]:
                                    what the loop visits; [None] when they raise *)
  insert_ok : quake -> bool      (* [cur.execute(insert_sql, record)] succeeds *)
}.

(** The store and the connection; the connection is in autocommit mode, so
    an executed insert stays. *)
Record store : Type := Store {
  earthquakes : option (list quake);   (* [None]: no such table *)
  conn_open : bool;
  cursor_open : bool;
  uploads : nat                        (* objects put into the bucket *)
}.

Inductive status : Type := success | error.

(** [LAT_MIN <= lat <= LAT_MAX and LON_MIN <= lon <= LON_MAX] *)
Definition in_box (lat lon : Q) : bool :=
  Qle_bool LAT_MIN lat && Qle_bool lat LAT_MAX &&
  Qle_bool LON_MIN lon && Qle_bool lon LON_MAX.

Section Ingestion.

(** Python's formatting of a float inside an f-string. *)
Variable format_float : Q -> string.

(** Line 107, [event.get('description', {}).get('text', '')]: the outer
    [None] when the expression raises, or when it yields a dict or a list,
    which the driver cannot insert into the TEXT column (the run then ends
    in the same [except] block, before any row for this event is stored);
    the inner [None] is Python's [None]. *)
Definition place_of (d : description_field) : option (option string) :=
  match d with
  | DescriptionAbsent => Some (Some EmptyString)
  | DescriptionDict TextAbsent => Some (Some EmptyString)
  | DescriptionDict TextNull => Some None
  | DescriptionDict (TextString t) => Some (Some t)
  | DescriptionDict TextOther => None
  | DescriptionOther => None
  end.

(** [str(place)] inside the f-string of the title. *)
Definition place_text (place : option string) : string :=
  match place with
  | Some t => t
  | None => "None"
  end.

(** Lines 106-122: the record of an event inside the box; [None] when one
    of the reads raises. *)
Definition record_of (ev : event) (lat lon : Q) : option quake :=
  match magnitude_value ev, place_of (description ev), publicID ev,
        depth_value ev, time_value ev with
  | Some mag, Some place, Some id, Some dep, Some t =>
      Some {| event_id := id;
              title := ("M" ++ format_float mag ++ " - " ++ place_text place)%string;
              magnitude := mag; place := place; time := t;
              latitude := lat; longitude := lon; depth := dep |}
  | _, _, _, _, _ => None
  end.

(** The [for event in events] loop on the rows of the table: the rows
    afterwards, and whether the loop ran to its end. *)
Fixpoint insert_events (f : feed) (evs : list event) (table : list quake)
    : bool * list quake :=
  match evs with
  | [] => (true, table)
  | ev :: rest =>
      match latitude_value ev, longitude_value ev with
      | Some lat, Some lon =>
          if in_box lat lon then
            match record_of ev lat lon with
            | Some row =>
                if insert_ok f row then insert_events f rest (table ++ [row])
                else (false, table)
            | None => (false, table)
            end
          else insert_events f rest table
      | _, _ => insert_events f rest table
      end
  end.

(** [cur.close(); conn.close()] *)
Definition closed (s : store) : store :=
  Store (earthquakes s) false false (uploads s).

Definition lambda_handler (f : feed) (s : store) : status * store :=
  if negb (connect_ok f) then (error, s)
  else if negb (cursor_ok f)
  then (error, Store (earthquakes s) true (cursor_open s) (uploads s))
  else
    let s1 := Store (earthquakes s) true true (uploads s) in
    if negb (create_ok f) then (error, closed s1)
    else
      let table := default [] (earthquakes s1) in
      let s2 := Store (Some table) true true (uploads s1) in
      if negb (get_ok f) then (error, closed s2)
      else if negb (bool_decide (status_code f = 200)) then (error, closed s2)
      else if negb (put_ok f) then (error, closed s2)
      else
        let s3 := Store (Some table) true true (S (uploads s2)) in
        match events f with
        | None => (error, closed s3)
        | Some evs =>
            let (finished, table') := insert_events f evs table in
            let s4 := Store (Some table') true true (uploads s3) in
            if finished then (success, closed s4) else (error, closed s4)
        end.

(** The rows a feed contributes: its events that carry both coordinates
    and lie inside the box. *)
Definition located_in_box (ev : event) : bool :=
  match latitude_value ev, longitude_value ev with
  | Some lat, Some lon => in_box lat lon
  | _, _ => false
  end.

Definition row_of (ev : event) : option quake :=
  match latitude_value ev, longitude_value ev with
  | Some lat, Some lon => record_of ev lat lon
  | _, _ => None
  end.

(** A visited element inside the box does not stop the loop: its record
    can be built and its insert executes. *)
Definition insertable (f : feed) (ev : event) : Prop :=
  located_in_box ev = true ->
  exists q, row_of ev = Some q /\ insert_ok f q = true.

End Ingestion.

(** The services the third [try] block needs before it reaches the loop. *)
Definition reachable (f : feed) : Prop :=
  connect_ok f = true /\ cursor_ok f = true /\ create_ok f = true /\
  get_ok f = true /\ status_code f = 200 /\ put_ok f = true.

(** A feed of three events: one in Tokyo, one without coordinates, one in
    Osaka (outside the box). *)
Definition sample_events : list event :=
  [ Event (Some (357 # 10)) (Some (1397 # 10)) (Some (45 # 10))
      (DescriptionDict (TextString "Tokyo"))
      (Some 1767225600) (Some "quakeml:tokyo1"%string) (Some (30 # 1));
    Event None None (Some (5 # 1)) DescriptionAbsent (Some 1767225700)
      (Some "quakeml:nowhere"%string) (Some (10 # 1));
    Event (Some (347 # 10)) (Some (1355 # 10)) (Some (6 # 1))
      (DescriptionDict (TextString "Osaka"))
      (Some 1767225800) (Some "quakeml:osaka1"%string) (Some (20 # 1)) ].

(** An event in Tokyo whose [<description/>] is empty. *)
Definition empty_description_event : event :=
  Event (Some 35%Q) (Some 139%Q) (Some (4 # 1)) DescriptionOther
    (Some 1767225900) (Some "quakeml:tokyo2"%string) (Some (15 # 1)).

Definition sample_feed : feed :=
  Feed true true true true 200 true (Some sample_events) (fun _ => true).

Definition empty_store : store := Store None false false 0.

End Earthquakes.

(** [D] is the most recent date of a non-empty date column. *)
Definition is_latest (D : Z) (ds : list Z) : Prop :=
  D ∈ ds /\ forall d, d ∈ ds -> d <= D.

(** * Properties *)

(** ** Dates *)

Lemma date_of_to_datetime (d : Z) : date_of (to_datetime d) = d.
Proof.
  unfold date_of, to_datetime, seconds_per_day.
  apply Z.div_mul. discriminate.
Qed.

Lemma date_of_add_days (d i : Z) : date_of (add_days (to_datetime d) i) = d + i.
Proof.
  unfold date_of, add_days, to_datetime, seconds_per_day.
  rewrite <- Z.mul_add_distr_r. apply Z.div_mul. discriminate.
Qed.

Lemma fire_dates_id (fire_df : frame) : fire_dates fire_df = fire_df.
Proof.
  unfold fire_dates. induction fire_df as [|[d x] rest IH]; simpl.
  - reflexivity.
  - rewrite date_of_to_datetime. f_equal. exact IH.
Qed.

(** ** Trend Model *)

(** One epoch on the single sample (1, 0, 1) from the initial weights with
    rate 0.1: the prediction is 0.5, the error -0.5, so the bias moves to
    0.1 and the AQI coefficient to 0.6. *)
Example sgd_train_one_epoch :
  match sgd_train (init_model (1 # 10)) (5 : Z) [1%Q] [0%Q] [1%Q] 1 with
  | Ok (m', g') =>
      Qred (w0 (w m')) = 1 # 10 /\ Qred (w1 (w m')) = 3 # 5 /\
      Qred (w2 (w m')) = 1 # 2 /\ g' = lcg_next 5
  | Raise _ => False
  end.
Proof. vm_compute. repeat split. Qed.

(** C6. Training on an empty sample set ([len(y_next) == 0]) returns
    normally and leaves the three weights (and the rate, and the generator)
    exactly as they were, for every epoch count. *)
Theorem sgd_train_empty_noop `{RandomSource}
    (m : SimpleLinearTimeModel) (g : rng) (x_aqi x_fire : list Q) (epochs : nat) :
  sgd_train m g x_aqi x_fire [] epochs = Ok (m, g).
Proof. reflexivity. Qed.

(** With samples of equal length the training loop does not raise. *)
Lemma sgd_loop_ok `{RandomSource} (epochs : nat) :
  forall (x_aqi x_fire y_next : list Q) (m : SimpleLinearTimeModel) (g : rng),
    length x_aqi = length y_next ->
    length x_fire = length y_next ->
    (0 < length y_next)%nat ->
    exists m' g', sgd_loop epochs (length y_next) x_aqi x_fire y_next m g = Ok (m', g').
Proof.
  induction epochs as [|ep IH]; intros x_aqi x_fire y_next m g Ha Hf Hn; simpl.
  - eauto.
  - pose proof (randrange_lt g (length y_next) Hn) as Hlt.
    destruct (randrange g (length y_next)) as [i g']. simpl in Hlt.
    destruct (lookup_lt_is_Some_2 x_aqi i) as [a ->]; [lia|].
    destruct (lookup_lt_is_Some_2 x_fire i) as [f ->]; [lia|].
    destruct (lookup_lt_is_Some_2 y_next i) as [y ->]; [lia|].
    apply IH; assumption.
Qed.

Lemma sgd_train_ok `{RandomSource} (m : SimpleLinearTimeModel) (g : rng)
    (x_aqi x_fire y_next : list Q) (epochs : nat) :
  length x_aqi = length y_next ->
  length x_fire = length y_next ->
  exists m' g', sgd_train m g x_aqi x_fire y_next epochs = Ok (m', g').
Proof.
  intros Ha Hf. unfold sgd_train.
  destruct (length y_next =? 0)%nat eqn:E.
  - eauto.
  - apply sgd_loop_ok; try assumption.
    apply Nat.eqb_neq in E. lia.
Qed.

(** ** Scaling *)

Lemma py_max_ge_l (a b : Q) : (a <= py_max a b)%Q.
Proof.
  unfold py_max. destruct (Qle_bool b a) eqn:E.
  - apply Qle_refl.
  - apply Qlt_le_weak, Qnot_le_lt. intros Hle.
    apply Qle_bool_iff in Hle. congruence.
Qed.

Lemma py_max_lt_l (a b : Q) : (b < a)%Q -> py_max a b = a.
Proof.
  intros Hlt. unfold py_max.
  destruct (Qle_bool b a) eqn:E; [reflexivity|].
  exfalso. apply Qlt_le_weak, Qle_bool_iff in Hlt. congruence.
Qed.

Lemma scale_factor_eq (xs : list Q) (k : Q) :
  scale_factor xs = Ok k -> k = py_max 1 (mean xs) /\ xs <> [].
Proof.
  unfold scale_factor, average. destruct xs as [|x xs]; simpl.
  - discriminate.
  - intros [= <-]. split; [reflexivity | discriminate].
Qed.

Lemma unscale_predict (mean_aqi mean_fire : Q) (ws : weights) (a f : Q) :
  (1 <= mean_aqi)%Q -> (1 <= mean_fire)%Q ->
  (predict_w (unscale mean_aqi mean_fire ws) a f
   == mean_aqi * predict_w ws (a / mean_aqi) (f / mean_fire))%Q.
Proof.
  intros Ha Hf. unfold predict_w, unscale. simpl.
  field. split; intros E; rewrite E in *; [apply Hf | apply Ha]; reflexivity.
Qed.

(** C3. The scaling factors computed by the handler are
    [max(1.0, mean of the sample feature)], hence at least 1, and for every
    scaled weight triple the unscaled weights applied to original-unit
    inputs give [mean_aqi] times the scaled model applied to the scaled
    inputs (equality of rationals). *)
Theorem scale_unscale_roundtrip
    (x_aqi x_fire : list Q) (mean_aqi mean_fire : Q) :
  scale_factor x_aqi = Ok mean_aqi ->
  scale_factor x_fire = Ok mean_fire ->
  mean_aqi = py_max 1 (mean x_aqi) /\
  mean_fire = py_max 1 (mean x_fire) /\
  (1 <= mean_aqi)%Q /\ (1 <= mean_fire)%Q /\
  forall (ws : weights) (a f : Q),
    w0 (unscale mean_aqi mean_fire ws) = (mean_aqi * w0 ws)%Q /\
    w1 (unscale mean_aqi mean_fire ws) = w1 ws /\
    w2 (unscale mean_aqi mean_fire ws) = ((mean_aqi / mean_fire) * w2 ws)%Q /\
    (predict_w (unscale mean_aqi mean_fire ws) a f
     == mean_aqi * predict_w ws (a / mean_aqi) (f / mean_fire))%Q.
Proof.
  intros Ha Hf.
  apply scale_factor_eq in Ha as [-> _]. apply scale_factor_eq in Hf as [-> _].
  repeat split; try apply py_max_ge_l.
  apply unscale_predict; apply py_max_ge_l.
Qed.

Lemma scale_unscale_roundtrip_witness :
  scale_factor [50; 55; 52; 60]%Q = Ok (217 # 4) /\
  scale_factor [0; 0; 10; 10]%Q = Ok (20 # 4) /\
  (predict_w (unscale (217 # 4) (20 # 4) (Weights (1 # 10) (3 # 5) (1 # 2))) 60 10
   == (217 # 4) * predict_w (Weights (1 # 10) (3 # 5) (1 # 2))
                    (60 / (217 # 4)) (10 / (20 # 4)))%Q.
Proof.
  split; [reflexivity | split; [reflexivity |]].
  apply (scale_unscale_roundtrip [50; 55; 52; 60]%Q [0; 0; 10; 10]%Q
           (217 # 4) (20 # 4)); reflexivity.
Defined.

(** ** Rollout *)

Lemma rollout_unfold (ws : weights) (last_date : Z) (last_aqi future_fire : Q) :
  let p1 := py_max 0 (w0 ws + w1 ws * last_aqi + w2 ws * future_fire)%Q in
  let p2 := py_max 0 (w0 ws + w1 ws * p1 + w2 ws * future_fire)%Q in
  let p3 := py_max 0 (w0 ws + w1 ws * p2 + w2 ws * future_fire)%Q in
  rollout ws last_date last_aqi future_fire
  = ([date_of (add_days last_date 1); date_of (add_days last_date 2);
      date_of (add_days last_date 3)], [p1; p2; p3], p3).
Proof. reflexivity. Qed.

(** ** Feature Builder *)

Lemma insert_key_elem (d : Z) (ks : list Z) (x : Z) :
  x ∈ insert_key d ks <-> x = d \/ x ∈ ks.
Proof.
  induction ks as [|k ks IH]; simpl.
  - rewrite list_elem_of_singleton, elem_of_nil. tauto.
  - repeat case_decide; subst; rewrite ?elem_of_cons, ?IH; tauto.
Qed.

Lemma insert_key_sorted (d : Z) (ks : list Z) :
  StronglySorted Z.lt ks -> StronglySorted Z.lt (insert_key d ks).
Proof.
  induction ks as [|k ks IH]; simpl; intros Hs.
  - repeat constructor.
  - inversion Hs as [|? ? Hs' Hall]; subst.
    repeat case_decide.
    + constructor; [exact Hs|]. constructor; [assumption|].
      eapply Forall_impl; [exact Hall|]. simpl. intros. lia.
    + exact Hs.
    + constructor; [apply IH; exact Hs'|].
      rewrite Forall_forall in Hall |- *. intros x Hx.
      apply insert_key_elem in Hx as [->|Hx]; [lia | auto].
Qed.

Lemma group_keys_elem (ds : list Z) (x : Z) : x ∈ group_keys ds <-> x ∈ ds.
Proof.
  unfold group_keys. induction ds as [|d ds IH]; simpl.
  - reflexivity.
  - rewrite insert_key_elem, elem_of_cons, IH. reflexivity.
Qed.

Lemma group_keys_sorted (ds : list Z) : StronglySorted Z.lt (group_keys ds).
Proof.
  unfold group_keys. induction ds as [|d ds IH]; simpl.
  - constructor.
  - apply insert_key_sorted, IH.
Qed.

Lemma sorted_lt_NoDup (l : list Z) : StronglySorted Z.lt l -> NoDup l.
Proof.
  induction 1 as [|x l Hs IH Hall]; constructor; [|exact IH].
  intros Hin. rewrite Forall_forall in Hall. specialize (Hall x Hin). lia.
Qed.

Lemma sorted_le_NoDup_lt (l : list Z) :
  StronglySorted Z.le l -> NoDup l -> StronglySorted Z.lt l.
Proof.
  induction 1 as [|x l Hs IH Hall]; intros Hnd; [constructor|].
  apply NoDup_cons in Hnd as [Hx Hnd].
  constructor; [apply IH; exact Hnd|].
  rewrite Forall_forall in Hall |- *. intros y Hy.
  specialize (Hall y Hy).
  assert (x <> y) by (intros ->; contradiction). lia.
Qed.

Lemma groupby_mean_keys (df : frame) : (groupby_mean df).*1 = group_keys (df.*1).
Proof.
  unfold groupby_mean. rewrite <- list_fmap_compose.
  apply list_fmap_id.
Qed.

Lemma groupby_mean_elem (df : frame) (d : Z) (v : Q) :
  (d, v) ∈ groupby_mean df <-> d ∈ df.*1 /\ v = mean (group_values d df).
Proof.
  unfold groupby_mean. split.
  - intros H. apply list_elem_of_fmap in H as (k & [= -> ->] & Hk).
    apply (proj1 (group_keys_elem _ _)) in Hk. auto.
  - intros [Hd ->]. apply list_elem_of_fmap. exists d. split; [reflexivity|].
    apply group_keys_elem. exact Hd.
Qed.

Lemma groupby_mean_NoDup (df : frame) : NoDup (groupby_mean df).*1.
Proof. rewrite groupby_mean_keys. apply sorted_lt_NoDup, group_keys_sorted. Qed.

Lemma fire_daily_of_eq (fire_df : frame) : fire_daily_of fire_df = groupby_mean fire_df.
Proof.
  unfold fire_daily_of. rewrite fire_dates_id. destruct fire_df; reflexivity.
Qed.

Lemma aqi_daily_of_eq (aqi_df : frame) :
  aqi_daily_of aqi_df = groupby_mean (aqi_dates aqi_df).
Proof. unfold aqi_daily_of. destruct aqi_df; reflexivity. Qed.

(** On a right frame with distinct keys, the rows matching one key are
    none or exactly one. *)
Lemma filter_key_unique (right : frame) (d : Z) :
  NoDup (right.*1) ->
  ((d ∉ right.*1) /\ filter (fun r => r.1 = d) right = []) \/
  (exists v, (d, v) ∈ right /\ filter (fun r => r.1 = d) right = [(d, v)]).
Proof.
  induction right as [|[k v] right IH]; intros Hnd.
  - left. split; [apply not_elem_of_nil | reflexivity].
  - rewrite fmap_cons in Hnd |- *. simpl fst in *.
    apply NoDup_cons in Hnd as [Hk Hnd].
    destruct (decide (k = d)) as [->|Hne].
    + right. exists v. split; [left|].
      rewrite filter_cons_True by reflexivity. f_equal.
      destruct (IH Hnd) as [[_ ->]|(v' & Hin & _)]; [reflexivity|].
      exfalso. apply Hk. apply (list_elem_of_fmap_2 fst) in Hin. exact Hin.
    + rewrite filter_cons_False by (simpl; congruence).
      destruct (IH Hnd) as [[Hnot ->]|(v' & Hin & ->)].
      * left. split; [|reflexivity]. rewrite not_elem_of_cons. split; [congruence|exact Hnot].
      * right. exists v'. split; [right; exact Hin | reflexivity].
Qed.

Lemma merge_left_cons (d : Z) (a : Q) (left right : frame) :
  merge_left ((d, a) :: left) right
  = match filter (fun r => r.1 = d) right with
    | [] => [(d, a, None)]
    | ms => (fun r => (d, a, Some r.2)) <$> ms
    end ++ merge_left left right.
Proof. reflexivity. Qed.

(** The left join followed by [fillna]: one row per left row, in order. *)
Lemma merge_left_rows (left right : frame) :
  NoDup (right.*1) ->
  date <$> (fillna <$> merge_left left right) = left.*1 /\
  forall r, r ∈ fillna <$> merge_left left right ->
    (date r, aqi r) ∈ left /\
    (((date r ∉ right.*1) /\ fire_intensity r = 0%Q) \/
     (date r, fire_intensity r) ∈ right).
Proof.
  intros Hnd.
  induction left as [|[d a] left [IHd IHr]].
  - split; [reflexivity|]. intros r Hr. inversion Hr.
  - rewrite merge_left_cons, !fmap_app.
    destruct (filter_key_unique right d Hnd) as [[Hnot ->]|(v & Hin & ->)]; simpl.
    + split; [f_equal; exact IHd|].
      intros r Hr. apply elem_of_cons in Hr as [->|Hr]; simpl.
      * split; [left | left; auto].
      * destruct (IHr r Hr) as [H1 H2]. split; [right; exact H1 | exact H2].
    + split; [f_equal; exact IHd|].
      intros r Hr. apply elem_of_cons in Hr as [->|Hr]; simpl.
      * split; [left | right; exact Hin].
      * destruct (IHr r Hr) as [H1 H2]. split; [right; exact H1 | exact H2].
Qed.

#[global] Instance date_le_transitive : Transitive date_le.
Proof. intros a b c. unfold date_le. lia. Qed.

#[global] Instance date_le_total : Total date_le.
Proof. intros a b. unfold date_le. lia. Qed.

Lemma sort_values_Permutation (df : list day_row) : sort_values df ≡ₚ df.
Proof. apply merge_sort_Permutation. Qed.

Lemma sort_values_sorted (df : list day_row) :
  StronglySorted Z.le (date <$> sort_values df).
Proof.
  apply (StronglySorted_fmap date date_le Z.le); [auto|].
  apply StronglySorted_merge_sort; apply _.
Qed.

(** The merged series is a rearrangement of the joined daily AQI rows. *)
Lemma merged_series_Permutation (fire_df aqi_df : frame) :
  merged_series fire_df aqi_df
  ≡ₚ fillna <$> merge_left (groupby_mean (aqi_dates aqi_df)) (groupby_mean fire_df).
Proof.
  unfold merged_series. rewrite fire_daily_of_eq, aqi_daily_of_eq.
  apply sort_values_Permutation.
Qed.

Lemma merged_series_dates (fire_df aqi_df : frame) :
  date <$> merged_series fire_df aqi_df ≡ₚ group_keys ((aqi_dates aqi_df).*1).
Proof.
  rewrite merged_series_Permutation.
  destruct (merge_left_rows (groupby_mean (aqi_dates aqi_df)) (groupby_mean fire_df)
              (groupby_mean_NoDup fire_df)) as [-> _].
  rewrite groupby_mean_keys. reflexivity.
Qed.

Lemma merged_series_sorted (fire_df aqi_df : frame) :
  StronglySorted Z.lt (date <$> merged_series fire_df aqi_df).
Proof.
  apply sorted_le_NoDup_lt; [apply sort_values_sorted|].
  rewrite merged_series_dates. apply sorted_lt_NoDup, group_keys_sorted.
Qed.

Lemma merged_series_row (fire_df aqi_df : frame) (r : day_row) :
  r ∈ merged_series fire_df aqi_df ->
  aqi r = mean (group_values (date r) (aqi_dates aqi_df)) /\
  (date r ∈ fire_df.*1 -> fire_intensity r = mean (group_values (date r) fire_df)) /\
  (date r ∉ fire_df.*1 -> fire_intensity r = 0%Q).
Proof.
  rewrite merged_series_Permutation. intros Hr.
  destruct (merge_left_rows (groupby_mean (aqi_dates aqi_df)) (groupby_mean fire_df)
              (groupby_mean_NoDup fire_df)) as [_ Hrows].
  destruct (Hrows r Hr) as [Ha Hf].
  apply groupby_mean_elem in Ha as [_ Ha].
  split; [exact Ha|].
  rewrite groupby_mean_keys in Hf.
  destruct Hf as [[Hnot H0]|Hin].
  - split; [|auto]. intros Hd. exfalso. apply Hnot, group_keys_elem, Hd.
  - apply groupby_mean_elem in Hin as [Hd Hv].
    split; [auto | intros Hnot; contradiction].
Qed.

(** C2. The merged series has strictly increasing dates (so it is sorted
    ascending with one row per date), its dates are exactly the calendar
    dates of the AQI readings, every row carries that day's mean AQI, its
    fire intensity is the mean brightness of that day's detections when the
    day has any and 0.0 when it has none, and without AQI readings the
    merged series is empty. *)
Theorem merged_series_invariant (fire_df aqi_df : frame) :
  StronglySorted Z.lt (date <$> merged_series fire_df aqi_df) /\
  NoDup (date <$> merged_series fire_df aqi_df) /\
  (forall d, d ∈ date <$> merged_series fire_df aqi_df <-> d ∈ (aqi_dates aqi_df).*1) /\
  (forall r, r ∈ merged_series fire_df aqi_df ->
     aqi r = mean (group_values (date r) (aqi_dates aqi_df)) /\
     (date r ∈ fire_df.*1 -> fire_intensity r = mean (group_values (date r) fire_df)) /\
     (date r ∉ fire_df.*1 -> fire_intensity r = 0%Q)) /\
  merged_series fire_df [] = [].
Proof.
  split; [apply merged_series_sorted|].
  split; [apply sorted_lt_NoDup, merged_series_sorted|].
  split; [|split; [apply merged_series_row | reflexivity]].
  intros d. rewrite merged_series_dates. apply group_keys_elem.
Qed.

(** The scenario of the specification gives the five rows it lists. *)
Example merged_series_scenario :
  merged_series scenario_fires scenario_aqi
  = [ DayRow jan1 (50 # 1) 0; DayRow (jan1 + 1) (55 # 1) 0;
      DayRow (jan1 + 2) (52 # 1) (20 # 2); DayRow (jan1 + 3) (60 # 1) (10 # 1);
      DayRow (jan1 + 4) (58 # 1) 0 ].
Proof. vm_compute. reflexivity. Qed.

Lemma merged_series_invariant_witness :
  DayRow (jan1 + 2) (52 # 1) (20 # 2) ∈ merged_series scenario_fires scenario_aqi /\
  fire_intensity (DayRow (jan1 + 2) (52 # 1) (20 # 2))
  = mean (group_values (jan1 + 2) scenario_fires).
Proof.
  assert (Hin : DayRow (jan1 + 2) (52 # 1) (20 # 2)
                ∈ merged_series scenario_fires scenario_aqi).
  { rewrite merged_series_scenario. do 2 right. left. }
  split; [exact Hin|].
  apply (merged_series_invariant scenario_fires scenario_aqi); [exact Hin|].
  vm_compute. do 1 left.
Defined.

(** ** Persistence Sink *)

(** What one pass of the loop appends: rows for dates outside
    [existing_dates], taken from the batch, one per date, covering every
    date of the batch that was missing. *)
Lemma insert_loop_appends (fet : Z) (points : list (Z * Q)) :
  forall (existing_dates : gset Z) (table : list prediction),
  exists added,
    insert_loop existing_dates fet points table = table ++ added /\
    (forall p, p ∈ added ->
       (prediction_date p ∉ existing_dates) /\
       fire_event_timestamp p = fet /\
       (prediction_date p, predicted_aqi p) ∈ points) /\
    NoDup (prediction_date <$> added) /\
    (forall d, d ∈ points.*1 ->
       d ∈ existing_dates \/ d ∈ prediction_date <$> added).
Proof.
  induction points as [|[d a] rest IH]; intros ex table; simpl.
  - exists []. rewrite app_nil_r.
    split; [reflexivity|]. split; [intros p Hp; inversion Hp|].
    split; [constructor|]. intros d Hd. inversion Hd.
  - case_decide as Hd.
    + destruct (IH ex table) as (added & Heq & Hrows & Hnd & Hcov).
      exists added. split; [exact Heq|]. split; [|split; [exact Hnd|]].
      * intros p Hp. destruct (Hrows p Hp) as (H1 & H2 & H3).
        split; [exact H1|]. split; [exact H2|]. right. exact H3.
      * intros d' Hd'. apply elem_of_cons in Hd' as [->|Hd']; auto.
    + destruct (IH ({[d]} ∪ ex) (table ++ [Prediction d fet a]))
        as (added & Heq & Hrows & Hnd & Hcov).
      exists (Prediction d fet a :: added).
      split; [rewrite Heq, <- app_assoc; reflexivity|].
      assert (Hfresh : d ∉ prediction_date <$> added).
      { intros Hin. apply list_elem_of_fmap in Hin as (p & -> & Hp).
        destruct (Hrows p Hp) as [Hp' _]. apply Hp'.
        apply elem_of_union_l, elem_of_singleton. reflexivity. }
      split; [|split].
      * intros p Hp. apply elem_of_cons in Hp as [->|Hp]; simpl.
        { split; [exact Hd|]. split; [reflexivity | left]. }
        destruct (Hrows p Hp) as (H1 & H2 & H3).
        split; [|split; [exact H2 | right; exact H3]].
        intros Hin. apply H1, elem_of_union_r, Hin.
      * rewrite fmap_cons. apply NoDup_cons. split; assumption.
      * intros d' Hd'. rewrite fmap_cons.
        apply elem_of_cons in Hd' as [->|Hd']; [right; left|].
        destruct (Hcov d' Hd') as [Hex|Hin]; [|right; right; exact Hin].
        apply elem_of_union in Hex as [Hex|Hex]; [|left; exact Hex].
        apply elem_of_singleton in Hex as ->. right. left.
Qed.

(** A batch whose dates are all known leaves the table as it is. *)
Lemma insert_loop_known (fet : Z) (points : list (Z * Q)) :
  forall (existing_dates : gset Z) (table : list prediction),
    (forall d, d ∈ points.*1 -> d ∈ existing_dates) ->
    insert_loop existing_dates fet points table = table.
Proof.
  induction points as [|[d a] rest IH]; intros ex table Hall; simpl.
  - reflexivity.
  - rewrite decide_True by (apply Hall; left).
    apply IH. intros d' Hd'. apply Hall. right. exact Hd'.
Qed.

Lemma insert_rows_appends (table : list prediction) (dates : list Z) (fet : Z)
    (aqi_values : list Q) :
  exists added,
    insert_rows table dates fet aqi_values = table ++ added /\
    (forall p, p ∈ added ->
       (prediction_date p ∉ prediction_date <$> table) /\
       fire_event_timestamp p = fet /\
       (prediction_date p, predicted_aqi p) ∈ zip dates aqi_values) /\
    NoDup (prediction_date <$> added) /\
    (forall d, d ∈ (zip dates aqi_values).*1 ->
       d ∈ prediction_date <$> (table ++ added)).
Proof.
  unfold insert_rows.
  destruct (insert_loop_appends fet (zip dates aqi_values)
              (list_to_set (prediction_date <$> table)) table)
    as (added & Heq & Hrows & Hnd & Hcov).
  exists added. split; [exact Heq|]. split; [|split; [exact Hnd|]].
  - intros p Hp. destruct (Hrows p Hp) as (H1 & H2 & H3).
    split; [|auto]. intros Hin. apply H1, elem_of_list_to_set, Hin.
  - intros d Hd. rewrite fmap_app, elem_of_app.
    destruct (Hcov d Hd) as [Hex|Hin]; [left|right; exact Hin].
    apply elem_of_list_to_set in Hex. exact Hex.
Qed.

Lemma insert_rows_twice (table : list prediction) (dates : list Z) (fet : Z)
    (aqi_values : list Q) :
  insert_rows (insert_rows table dates fet aqi_values) dates fet aqi_values
  = insert_rows table dates fet aqi_values.
Proof.
  destruct (insert_rows_appends table dates fet aqi_values)
    as (added & Heq & _ & _ & Hcov).
  rewrite Heq. unfold insert_rows at 1. apply insert_loop_known.
  intros d Hd. apply elem_of_list_to_set, Hcov, Hd.
Qed.

Lemma insert_rows_NoDup (table : list prediction) (dates : list Z) (fet : Z)
    (aqi_values : list Q) :
  NoDup (prediction_date <$> table) ->
  NoDup (prediction_date <$> insert_rows table dates fet aqi_values).
Proof.
  intros Hnd.
  destruct (insert_rows_appends table dates fet aqi_values)
    as (added & -> & Hrows & Hnd' & _).
  rewrite fmap_app. apply NoDup_app. split; [exact Hnd|]. split; [|exact Hnd'].
  intros d Hd Hin. apply list_elem_of_fmap in Hin as (p & -> & Hp).
  destruct (Hrows p Hp) as [Hnot _]. contradiction.
Qed.

(** C7, as the code has it.  For every table and batch: one run keeps the
    stored rows and appends rows only for batch dates that were not stored,
    at most one per date; afterwards every batch date is stored; a second
    run of the same batch changes nothing; and when the stored dates were
    pairwise distinct, the table after two runs holds exactly one row per
    prediction date. *)
Theorem insert_timeseries_idempotent (table : list prediction) (dates : list Z)
    (fet : Z) (aqi_values : list Q) :
  (exists added,
     insert_rows table dates fet aqi_values = table ++ added /\
     (forall p, p ∈ added ->
        (prediction_date p ∉ prediction_date <$> table) /\
        fire_event_timestamp p = fet /\
        (prediction_date p, predicted_aqi p) ∈ zip dates aqi_values) /\
     NoDup (prediction_date <$> added)) /\
  (forall d, d ∈ (zip dates aqi_values).*1 ->
     d ∈ prediction_date <$> insert_rows table dates fet aqi_values) /\
  insert_rows (insert_rows table dates fet aqi_values) dates fet aqi_values
  = insert_rows table dates fet aqi_values /\
  (NoDup (prediction_date <$> table) ->
   NoDup (prediction_date <$>
            insert_rows (insert_rows table dates fet aqi_values) dates fet aqi_values)).
Proof.
  split; [|split; [|split]].
  - destruct (insert_rows_appends table dates fet aqi_values)
      as (added & Heq & Hrows & Hnd & _).
    exists added. auto.
  - destruct (insert_rows_appends table dates fet aqi_values)
      as (added & -> & _ & _ & Hcov). exact Hcov.
  - apply insert_rows_twice.
  - intros Hnd. rewrite insert_rows_twice. apply insert_rows_NoDup, Hnd.
Qed.

Lemma insert_timeseries_idempotent_witness :
  NoDup (prediction_date <$> [Prediction 1 0 10]) /\
  NoDup (prediction_date <$>
           insert_rows (insert_rows [Prediction 1 0 10] [1; 2; 2] 7 [30; 40; 50]%Q)
             [1; 2; 2] 7 [30; 40; 50]%Q).
Proof.
  assert (H1 : NoDup (prediction_date <$> [Prediction 1 0 10])).
  { simpl. apply NoDup_singleton. }
  split; [exact H1|].
  apply (insert_timeseries_idempotent [Prediction 1 0 10] [1; 2; 2] 7 [30; 40; 50]%Q).
  exact H1.
Defined.

Example insert_rows_batch_duplicate :
  insert_rows [Prediction 1 0 10] [1; 2; 2] 7 [30; 40; 50]%Q
  = [Prediction 1 0 10; Prediction 2 7 40].
Proof. vm_compute. reflexivity. Qed.

(** C7 as stated fails on a table that already holds a date twice: the
    two stored rows for day 1 are still there after the batch has run
    twice. *)
Lemma insert_timeseries_keeps_stored_duplicates :
  insert_rows (insert_rows [Prediction 1 0 10; Prediction 1 0 20] [1] 7 [30%Q])
    [1] 7 [30%Q]
  = [Prediction 1 0 10; Prediction 1 0 20] /\
  ~ NoDup (prediction_date <$>
             insert_rows (insert_rows [Prediction 1 0 10; Prediction 1 0 20] [1] 7 [30%Q])
               [1] 7 [30%Q]).
Proof.
  assert (E : insert_rows (insert_rows [Prediction 1 0 10; Prediction 1 0 20] [1] 7 [30%Q])
                [1] 7 [30%Q] = [Prediction 1 0 10; Prediction 1 0 20])
    by (vm_compute; reflexivity).
  split; [exact E|]. rewrite E. simpl. intros Hnd.
  apply NoDup_cons in Hnd as [Hnot _]. apply Hnot. left.
Qed.

(** ** The most recent fire date *)

Lemma is_latest_unique (D D' : Z) (ds : list Z) :
  is_latest D ds -> is_latest D' ds -> D = D'.
Proof.
  intros [Hin Hmax] [Hin' Hmax'].
  specialize (Hmax D' Hin'). specialize (Hmax' D Hin). lia.
Qed.

Lemma foldl_max_latest (ds : list Z) :
  forall d, is_latest (foldl Z.max d ds) (d :: ds).
Proof.
  induction ds as [|x ds IH]; intros d; simpl.
  - split; [left|]. intros y Hy. apply list_elem_of_singleton in Hy. lia.
  - destruct (IH (Z.max d x)) as [Hin Hmax]. split.
    + apply elem_of_cons in Hin as [->|Hin]; [|right; right; exact Hin].
      destruct (Z.max_spec d x) as [[_ ->]|[_ ->]]; [right; left | left].
    + intros y Hy.
      assert (Hdx : Z.max d x <= foldl Z.max (Z.max d x) ds) by (apply Hmax; left).
      apply elem_of_cons in Hy as [->|Hy]; [lia|].
      apply elem_of_cons in Hy as [->|Hy]; [lia|].
      apply Hmax. right. exact Hy.
Qed.

Lemma series_max_latest (ds : list Z) (D : Z) :
  series_max ds = Some D <-> is_latest D ds.
Proof.
  destruct ds as [|d ds]; simpl.
  - split; [discriminate|]. intros [Hin _]. inversion Hin.
  - split.
    + intros [= <-]. apply foldl_max_latest.
    + intros HD. f_equal. eapply is_latest_unique; [apply foldl_max_latest | exact HD].
Qed.

Lemma sorted_last_latest (l : list Z) (D : Z) :
  StronglySorted Z.lt l -> last l = Some D -> is_latest D l.
Proof.
  intros Hs Hl. apply last_Some in Hl as [l' ->].
  split; [apply elem_of_app; right; left|].
  intros d Hd. apply elem_of_app in Hd as [Hd|Hd].
  - apply StronglySorted_app_1_elem_of with (x1 := d) (x2 := D) in Hs;
      [lia | exact Hd | left].
  - apply list_elem_of_singleton in Hd. lia.
Qed.

Lemma is_latest_group_keys (D : Z) (ds : list Z) :
  is_latest D ds <-> is_latest D (group_keys ds).
Proof.
  unfold is_latest. rewrite group_keys_elem.
  split; intros [Hin Hmax]; (split; [exact Hin|]); intros d Hd;
    apply Hmax; apply group_keys_elem; exact Hd.
Qed.

(** The last row of the daily fire frame is the most recent fire day with
    the mean brightness of its detections. *)
Lemma fire_daily_last (fire_df : frame) (D : Z) :
  is_latest D (fire_df.*1) ->
  last (fire_daily_of fire_df) = Some (D, mean (group_values D fire_df)).
Proof.
  intros HD. rewrite fire_daily_of_eq.
  assert (Hkeys : is_latest D (group_keys (fire_df.*1)))
    by (apply (proj1 (is_latest_group_keys _ _)); exact HD).
  destruct (last (groupby_mean fire_df)) as [[d v]|] eqn:El.
  - assert (Hin : (d, v) ∈ groupby_mean fire_df) by (apply last_Some_elem_of, El).
    apply groupby_mean_elem in Hin as [_ ->].
    assert (Hd : last (group_keys (fire_df.*1)) = Some d).
    { rewrite <- groupby_mean_keys, fmap_last, El. reflexivity. }
    apply sorted_last_latest in Hd; [|apply group_keys_sorted].
    rewrite (is_latest_unique _ _ _ Hd Hkeys). reflexivity.
  - apply last_None in El. exfalso.
    destruct Hkeys as [Hin _]. rewrite <- groupby_mean_keys, El in Hin. inversion Hin.
Qed.

Lemma last_fire_date_of_latest (fire_df : frame) (D : Z) :
  is_latest D (fire_df.*1) -> last_fire_date_of fire_df = Some (to_datetime D).
Proof.
  intros HD. unfold last_fire_date_of.
  destruct fire_df as [|r rest]; [destruct HD as [Hin _]; inversion Hin|].
  rewrite fire_daily_of_eq, groupby_mean_keys.
  apply (proj1 (is_latest_group_keys _ _)) in HD.
  apply (proj2 (series_max_latest _ _)) in HD. rewrite HD. reflexivity.
Qed.

Lemma last_fire_date_of_Some (fire_df : frame) (t : Z) :
  last_fire_date_of fire_df = Some t ->
  exists D, is_latest D (fire_df.*1) /\ t = to_datetime D.
Proof.
  unfold last_fire_date_of. destruct fire_df as [|r rest]; [discriminate|].
  rewrite fire_daily_of_eq, groupby_mean_keys.
  destruct (series_max (group_keys ((r :: rest).*1))) as [D|] eqn:E; [|discriminate].
  intros [= <-]. exists D. split; [|reflexivity].
  apply (proj2 (is_latest_group_keys _ _)), (proj1 (series_max_latest _ _)), E.
Qed.

(** ** The handler, path by path *)

Section HandlerFacts.

Context {RS : RandomSource}.

(** The world after [psycopg2.connect] and [conn.cursor()]. *)
Definition connected (s : world) : world :=
  World (fires s) (air_quality s) (air_quality_predictions s) (clock s)
        (S (connections s)) true true (random_state s) (trace s).

Lemma lambda_handler_unfold (s : world) :
  lambda_handler s
  = (if decide (length (merged_series (fires s) (air_quality s)) < 5)%nat
     then fallback_path (fires s)
     else model_path (fires s) (merged_series (fires s) (air_quality s)))
      (connected s).
Proof. reflexivity. Qed.

(** The fallback path always returns: it hands one batch to the sink,
    closes cursor and connection, and leaves the generator alone. *)
Lemma fallback_path_eval (fire_df : frame) (s : world) :
  let last_date :=
    match last (fire_daily_of fire_df) with
    | Some r => to_datetime r.1
    | None => clock s 0%nat
    end in
  let clock1 :=
    match last (fire_daily_of fire_df) with
    | Some _ => clock s
    | None => later (clock s)
    end in
  let fet :=
    match series_max (fire_df.*1) with
    | Some d => to_datetime d
    | None => clock1 0%nat
    end in
  let clock2 :=
    match series_max (fire_df.*1) with
    | Some _ => clock1
    | None => later clock1
    end in
  let dates := fallback_dates last_date in
  let vals := fallback_aqi (fire_daily_of fire_df) in
  fallback_path fire_df s
  = (Ok (Response 200 FallbackStored),
     World (fires s) (air_quality s)
           (Some (insert_rows (default [] (air_quality_predictions s)) dates fet vals))
           clock2 (connections s) false false (random_state s)
           (trace s ++ [Handed dates fet vals])).
Proof.
  unfold fallback_path, fire_event_time_of, _insert_timeseries,
    _create_prediction_table. simpl.
  destruct (last (fire_daily_of fire_df)) as [r|];
    destruct (series_max (fire_df.*1)) as [d|];
    destruct s as [f a [t|] c n co cu g tr]; reflexivity.
Qed.

(** The three training lists are what the loop over [range(len(df) - 1)]
    appends: at index [i] the AQI and fire intensity of day [i] and the AQI
    of day [i + 1]. *)
Lemma training_lists_lookup (df : list day_row) (i : nat) (r r' : day_row) :
  df !! i = Some r ->
  df !! S i = Some r' ->
  x_aqi_of df !! i = Some (aqi r) /\
  x_fire_of df !! i = Some (fire_intensity r) /\
  y_next_of df !! i = Some (aqi r').
Proof.
  intros Hi Hsi. pose proof (lookup_lt_Some _ _ _ Hsi) as Hlt.
  unfold x_aqi_of, x_fire_of, y_next_of.
  rewrite !lookup_take_lt by lia.
  rewrite lookup_drop, !list_lookup_fmap, Hi. simpl Nat.add. rewrite Hsi.
  repeat split.
Qed.

(** From two merged days on, the training data is well-formed: both
    scaling factors exist and [sgd_train] returns. *)
Lemma training_ready (df : list day_row) :
  (2 <= length df)%nat ->
  exists mean_aqi mean_fire,
    scale_factor (x_aqi_of df) = Ok mean_aqi /\
    scale_factor (x_fire_of df) = Ok mean_fire /\
    forall g, exists m g',
      sgd_train (init_model (1 # 1000)) g (scaled (x_aqi_of df) mean_aqi)
        (scaled (x_fire_of df) mean_fire) (scaled (y_next_of df) mean_aqi) 4000
      = Ok (m, g').
Proof.
  intros Hlen.
  assert (Ha : length (x_aqi_of df) = (length df - 1)%nat).
  { unfold x_aqi_of. rewrite length_take, length_fmap. lia. }
  assert (Hf : length (x_fire_of df) = (length df - 1)%nat).
  { unfold x_fire_of. rewrite length_take, length_fmap. lia. }
  assert (Hy : length (y_next_of df) = (length df - 1)%nat).
  { unfold y_next_of. rewrite length_drop, length_fmap. lia. }
  exists (py_max 1 (mean (x_aqi_of df))), (py_max 1 (mean (x_fire_of df))).
  split; [|split].
  - unfold scale_factor, average.
    destruct (x_aqi_of df); [simpl in Ha; lia | reflexivity].
  - unfold scale_factor, average.
    destruct (x_fire_of df); [simpl in Hf; lia | reflexivity].
  - intros g. apply sgd_train_ok; unfold scaled; rewrite !length_fmap; lia.
Qed.

(** The model path once training has returned. *)
Lemma model_path_eval (fire_df : frame) (df : list day_row) (s : world)
    (mean_aqi mean_fire : Q) (m : SimpleLinearTimeModel) (g' : rng) :
  scale_factor (x_aqi_of df) = Ok mean_aqi ->
  scale_factor (x_fire_of df) = Ok mean_fire ->
  sgd_train (init_model (1 # 1000)) (random_state s) (scaled (x_aqi_of df) mean_aqi)
    (scaled (x_fire_of df) mean_fire) (scaled (y_next_of df) mean_aqi) 4000
  = Ok (m, g') ->
  let trained :=
    World (fires s) (air_quality s) (air_quality_predictions s) (clock s)
          (connections s) (conn_open s) (cursor_open s) g'
          (trace s ++ [Trained (w m)]) in
  model_path fire_df df s
  = match last_fire_date_of fire_df with
    | None => (Raise UnboundLocalError, trained)
    | Some last_fire_date =>
        match seed_row df last_fire_date with
        | Raise e => (Raise e, trained)
        | Ok last_row =>
            let '(dates, vals, _) :=
              rollout (unscale mean_aqi mean_fire (w m)) last_fire_date
                (aqi last_row) (fire_intensity last_row) in
            let fet :=
              match series_max (fire_df.*1) with
              | Some d => to_datetime d
              | None => clock s 0%nat
              end in
            let clock1 :=
              match series_max (fire_df.*1) with
              | Some _ => clock s
              | None => later (clock s)
              end in
            (Ok (Response 200 (ForecastStored dates)),
             World (fires s) (air_quality s)
                   (Some (insert_rows (default [] (air_quality_predictions s))
                            dates fet vals))
                   clock1 (connections s) false false g'
                   (trace s ++ [Trained (w m); Handed dates fet vals]))
        end
    end.
Proof.
  intros Ha Hf Ht. unfold model_path, train, bind, lift, gets.
  rewrite Ha, Hf, Ht. simpl.
  destruct (last_fire_date_of fire_df) as [lfd|]; simpl; [|reflexivity].
  destruct (seed_row df lfd) as [row|e]; simpl; [|reflexivity].
  unfold fire_event_time_of, _insert_timeseries, _create_prediction_table.
  destruct (series_max (fire_df.*1)) as [d|];
    destruct s as [f a [t|] c n co cu g tr]; simpl;
    rewrite <- ?app_assoc; reflexivity.
Qed.

End HandlerFacts.

(** ** Fallback forecast *)

(** The rows stored by the fallback run on two AQI days and the scenario's
    fire rows, on an absent table. *)
Example fallback_forecast_stored :
  air_quality_predictions
    (lambda_handler (fresh_process scenario_fires (take 2 scenario_aqi) None (ticking 0))).2
  = Some [ Prediction (jan1 + 4) (to_datetime (jan1 + 3)) (50 # 1);
           Prediction (jan1 + 5) (to_datetime (jan1 + 3)) (50 # 1);
           Prediction (jan1 + 6) (to_datetime (jan1 + 3)) (50 # 1) ].
Proof. vm_compute. reflexivity. Qed.

(** ** Rollout seed and rollout *)

(** On a frame with increasing dates, the last row among those on or
    before [D] is the latest such day. *)
Lemma last_on_or_before (D : Z) (df : list day_row) (row : day_row) :
  StronglySorted Z.lt (date <$> df) ->
  last (filter (fun r => date r <= D) df) = Some row ->
  row ∈ df /\ date row <= D /\
  forall r, r ∈ df -> date r <= D -> date r <= date row.
Proof.
  induction df as [|x df IH]; intros Hs Hl.
  - discriminate.
  - rewrite fmap_cons in Hs. apply StronglySorted_inv in Hs as [Hs Hall].
    rewrite Forall_fmap, Forall_forall in Hall.
    destruct (decide (date x <= D)) as [Hx|Hx].
    + rewrite filter_cons_True in Hl by exact Hx.
      destruct (last (filter (fun r => date r <= D) df)) as [row'|] eqn:El.
      * rewrite last_cons, El in Hl. injection Hl as ->.
        destruct (IH Hs eq_refl) as (Hin & Hle & Hmax).
        split; [right; exact Hin|]. split; [exact Hle|].
        intros r Hr HrD. apply elem_of_cons in Hr as [->|Hr]; [|auto].
        specialize (Hall row Hin). simpl in Hall. lia.
      * rewrite last_cons, El in Hl. injection Hl as ->.
        split; [left|]. split; [exact Hx|].
        intros r Hr HrD. apply elem_of_cons in Hr as [->|Hr]; [lia|].
        apply last_None in El.
        assert (Hin : r ∈ filter (fun r => date r <= D) df)
          by (apply list_elem_of_filter; auto).
        rewrite El in Hin. inversion Hin.
    + rewrite filter_cons_False in Hl by exact Hx.
      destruct (IH Hs Hl) as (Hin & Hle & Hmax).
      split; [right; exact Hin|]. split; [exact Hle|].
      intros r Hr HrD. apply elem_of_cons in Hr as [->|Hr]; [contradiction | auto].
Qed.

(** The seed row of the handler: when some merged day is on or before the
    most recent fire day [D], the seed is the latest such day. *)
Lemma seed_row_selection (fire_df aqi_df : frame) (D : Z) :
  (exists r, r ∈ merged_series fire_df aqi_df /\ date r <= D) ->
  exists row,
    seed_row (merged_series fire_df aqi_df) (to_datetime D) = Ok row /\
    row ∈ merged_series fire_df aqi_df /\ date row <= D /\
    forall r, r ∈ merged_series fire_df aqi_df -> date r <= D -> date r <= date row.
Proof.
  intros (r & Hr & HrD). unfold seed_row. rewrite date_of_to_datetime.
  destruct (last (filter (fun r => date r <= D) (merged_series fire_df aqi_df)))
    as [row|] eqn:El.
  - exists row. split; [reflexivity|].
    apply last_on_or_before; [apply merged_series_sorted | exact El].
  - apply last_None in El.
    assert (Hin : r ∈ filter (fun r => date r <= D) (merged_series fire_df aqi_df))
      by (apply list_elem_of_filter; auto).
    rewrite El in Hin. inversion Hin.
Qed.

Lemma seed_row_none (df : list day_row) (D : Z) :
  (forall r, r ∈ df -> D < date r) ->
  seed_row df (to_datetime D) = Raise IndexError.
Proof.
  intros Hall. unfold seed_row. rewrite date_of_to_datetime.
  destruct (last (filter (fun r => date r <= D) df)) as [row|] eqn:El; [|reflexivity].
  apply last_Some_elem_of, list_elem_of_filter in El as [Hle Hin].
  specialize (Hall row Hin). lia.
Qed.

(** C4. On the model path (five merged days or more, a most recent fire
    day [D], a seed row), the batch handed to the sink holds, for the days
    D+1, D+2, D+3, the values [max(0.0, w0 + w1 * prev + w2 * future_fire)]
    where [w0, w1, w2] are the unscaled trained weights, [future_fire] is the
    seed row's fire intensity on all three days, and [prev] is the seed AQI
    on the first day and the previous stored value afterwards; a negative
    model output gives the stored value 0.0, which is then the next input. *)
Theorem rollout_clamped_autoregressive `{RandomSource} (s : world) (D : Z)
    (row : day_row) :
  (5 <= length (merged_series (fires s) (air_quality s)))%nat ->
  is_latest D ((fires s).*1) ->
  seed_row (merged_series (fires s) (air_quality s)) (to_datetime D) = Ok row ->
  exists trained : weights,
    let df := merged_series (fires s) (air_quality s) in
    let ws := unscale (py_max 1 (mean (x_aqi_of df))) (py_max 1 (mean (x_fire_of df)))
                trained in
    let future_fire := fire_intensity row in
    let p1 := py_max 0 (w0 ws + w1 ws * aqi row + w2 ws * future_fire)%Q in
    let p2 := py_max 0 (w0 ws + w1 ws * p1 + w2 ws * future_fire)%Q in
    let p3 := py_max 0 (w0 ws + w1 ws * p2 + w2 ws * future_fire)%Q in
    (lambda_handler s).1 = Ok (Response 200 (ForecastStored [D + 1; D + 2; D + 3])) /\
    trace (lambda_handler s).2
    = trace s ++ [Trained trained;
                  Handed [D + 1; D + 2; D + 3] (to_datetime D) [p1; p2; p3]] /\
    ((w0 ws + w1 ws * aqi row + w2 ws * future_fire < 0)%Q -> p1 = 0%Q) /\
    ((w0 ws + w1 ws * p1 + w2 ws * future_fire < 0)%Q -> p2 = 0%Q) /\
    ((w0 ws + w1 ws * p2 + w2 ws * future_fire < 0)%Q -> p3 = 0%Q).
Proof.
  intros Hlen HD Hseed.
  destruct (training_ready (merged_series (fires s) (air_quality s)))
    as (ma & mf & Ha & Hf & Ht); [lia|].
  destruct (Ht (random_state s)) as (m & g' & Htrain).
  exists (w m).
  rewrite lambda_handler_unfold, decide_False by lia.
  rewrite (model_path_eval _ _ (connected s) ma mf m g' Ha Hf Htrain).
  rewrite (last_fire_date_of_latest _ _ HD).
  rewrite Hseed, rollout_unfold.
  rewrite (proj2 (series_max_latest _ _) HD).
  rewrite !date_of_add_days.
  apply scale_factor_eq in Ha as [-> _]. apply scale_factor_eq in Hf as [-> _].
  simpl. split; [reflexivity|]. split; [reflexivity|].
  repeat split; apply py_max_lt_l.
Qed.

Lemma scenario_fires_latest : is_latest (jan1 + 3) (scenario_fires.*1).
Proof. apply series_max_latest. reflexivity. Qed.

Lemma rollout_clamped_autoregressive_witness :
  (lambda_handler (fresh_process scenario_fires scenario_aqi None (ticking 0))).1
  = Ok (Response 200 (ForecastStored [jan1 + 3 + 1; jan1 + 3 + 2; jan1 + 3 + 3])).
Proof.
  destruct (rollout_clamped_autoregressive
              (fresh_process scenario_fires scenario_aqi None (ticking 0)) (jan1 + 3)
              (DayRow (jan1 + 3) (60 # 1) (10 # 1))) as (trained & Hres & _).
  - simpl fires. simpl air_quality. rewrite merged_series_scenario. simpl. lia.
  - exact scenario_fires_latest.
  - simpl fires. simpl air_quality. rewrite merged_series_scenario. reflexivity.
  - exact Hres.
Defined.

(** ** The model path, outcome by outcome *)

(** With five merged days or more the handler trains, then either stops
    at the seed (no fire row: [last_fire_date] is unbound; no merged day on
    or before the last fire day: [iloc[-1]] fails) with cursor and
    connection still open, or rolls out, stores and closes. *)
Lemma lambda_handler_model `{RandomSource} (s : world) :
  (5 <= length (merged_series (fires s) (air_quality s)))%nat ->
  exists (mean_aqi mean_fire : Q) (m : SimpleLinearTimeModel) (g' : rng),
    let df := merged_series (fires s) (air_quality s) in
    let trained :=
      World (fires s) (air_quality s) (air_quality_predictions s) (clock s)
            (S (connections s)) true true g' (trace s ++ [Trained (w m)]) in
    (1 <= mean_aqi)%Q /\ (1 <= mean_fire)%Q /\
    lambda_handler s
    = match last_fire_date_of (fires s) with
      | None => (Raise UnboundLocalError, trained)
      | Some last_fire_date =>
          match seed_row df last_fire_date with
          | Raise e => (Raise e, trained)
          | Ok last_row =>
              let '(dates, vals, _) :=
                rollout (unscale mean_aqi mean_fire (w m)) last_fire_date
                  (aqi last_row) (fire_intensity last_row) in
              let fet :=
                match series_max ((fires s).*1) with
                | Some d => to_datetime d
                | None => clock s 0%nat
                end in
              let clock1 :=
                match series_max ((fires s).*1) with
                | Some _ => clock s
                | None => later (clock s)
                end in
              (Ok (Response 200 (ForecastStored dates)),
               World (fires s) (air_quality s)
                     (Some (insert_rows (default [] (air_quality_predictions s))
                              dates fet vals))
                     clock1 (S (connections s)) false false g'
                     (trace s ++ [Trained (w m); Handed dates fet vals]))
          end
      end.
Proof.
  intros Hlen.
  destruct (training_ready (merged_series (fires s) (air_quality s)))
    as (ma & mf & Ha & Hf & Ht); [lia|].
  destruct (Ht (random_state s)) as (m & g' & Htrain).
  exists ma, mf, m, g'.
  rewrite lambda_handler_unfold, decide_False by lia.
  rewrite (model_path_eval _ _ (connected s) ma mf m g' Ha Hf Htrain).
  apply scale_factor_eq in Ha as [-> _]. apply scale_factor_eq in Hf as [-> _].
  split; [apply py_max_ge_l|]. split; [apply py_max_ge_l|]. reflexivity.
Qed.

Lemma scenario_five_days (fire_df : frame) :
  length (merged_series fire_df scenario_aqi) = 5%nat.
Proof.
  assert (Hd : date <$> merged_series fire_df scenario_aqi
               ≡ₚ group_keys ((aqi_dates scenario_aqi).*1))
    by apply merged_series_dates.
  apply Permutation_length in Hd. rewrite length_fmap in Hd. exact Hd.
Qed.

(** Where a seed exists the handler uses it: the latest merged day on or
    before the most recent fire day [D] seeds the rollout, and its fire
    intensity is the fire input of all three days. *)
Lemma seed_selection_when_defined `{RandomSource} (s : world) (D : Z) :
  (5 <= length (merged_series (fires s) (air_quality s)))%nat ->
  is_latest D ((fires s).*1) ->
  (exists r, r ∈ merged_series (fires s) (air_quality s) /\ date r <= D) ->
  exists (row : day_row) (mean_aqi mean_fire : Q) (trained : weights),
    row ∈ merged_series (fires s) (air_quality s) /\ date row <= D /\
    (forall r, r ∈ merged_series (fires s) (air_quality s) ->
       date r <= D -> date r <= date row) /\
    invocation_events s
    = [Trained trained;
       Handed [D + 1; D + 2; D + 3] (to_datetime D)
         (rollout (unscale mean_aqi mean_fire trained) (to_datetime D)
            (aqi row) (fire_intensity row)).1.2].
Proof.
  intros Hlen HD Hex.
  destruct (seed_row_selection _ _ D Hex) as (row & Hseed & Hin & Hle & Hmax).
  destruct (lambda_handler_model s Hlen) as (ma & mf & m & g' & _ & _ & Heq).
  exists row, ma, mf, (w m). split; [exact Hin|]. split; [exact Hle|].
  split; [exact Hmax|].
  unfold invocation_events. rewrite Heq.
  rewrite (last_fire_date_of_latest _ _ HD), Hseed, rollout_unfold.
  rewrite (proj2 (series_max_latest _ _) HD), !date_of_add_days.
  simpl trace. rewrite drop_app_length. reflexivity.
Qed.

(** C5, where the code departs from it.  Five days of AQI and no fire
    row take the model path and stop with [UnboundLocalError] at the read of
    [last_fire_date]; five days of AQI that all follow the only fire day
    stop with [IndexError] at [iloc[-1]].  In both runs no seed is selected
    and nothing is stored. *)
Theorem seed_selection_raises :
  (lambda_handler (fresh_process [] scenario_aqi None (ticking 0))).1
  = Raise UnboundLocalError /\
  air_quality_predictions (lambda_handler (fresh_process [] scenario_aqi None (ticking 0))).2
  = None /\
  (lambda_handler (fresh_process [(jan1 - 1, 300%Q)] scenario_aqi None (ticking 0))).1
  = Raise IndexError /\
  air_quality_predictions
    (lambda_handler (fresh_process [(jan1 - 1, 300%Q)] scenario_aqi None (ticking 0))).2
  = None.
Proof.
  destruct (lambda_handler_model (fresh_process [] scenario_aqi None (ticking 0)))
    as (ma & mf & m & g' & _ & _ & ->).
  { simpl fires. simpl air_quality. rewrite scenario_five_days. lia. }
  destruct (lambda_handler_model (fresh_process [(jan1 - 1, 300%Q)] scenario_aqi None (ticking 0)))
    as (ma' & mf' & m' & g'' & _ & _ & ->).
  { simpl fires. simpl air_quality. rewrite scenario_five_days. lia. }
  simpl fires. simpl air_quality.
  rewrite (last_fire_date_of_latest [(jan1 - 1, 300%Q)] (jan1 - 1))
    by (apply series_max_latest; reflexivity).
  rewrite seed_row_none.
  - repeat split.
  - intros r Hr.
    assert (E : merged_series [(jan1 - 1, 300%Q)] scenario_aqi
                = [ DayRow jan1 (50 # 1) 0; DayRow (jan1 + 1) (55 # 1) 0;
                    DayRow (jan1 + 2) (52 # 1) 0; DayRow (jan1 + 3) (60 # 1) 0;
                    DayRow (jan1 + 4) (58 # 1) 0 ])
      by (vm_compute; reflexivity).
    rewrite E in Hr.
    repeat (apply elem_of_cons in Hr as [->|Hr]; [vm_compute; reflexivity|]).
    inversion Hr.
Qed.

(** ** Connection handling *)

(** What the handler does with the connection: it connects once; when it
    returns a response, cursor and connection are closed; when it raises,
    both are still open. *)
Lemma lambda_handler_connection `{RandomSource} (s : world) :
  connections (lambda_handler s).2 = S (connections s) /\
  match (lambda_handler s).1 with
  | Ok _ =>
      conn_open (lambda_handler s).2 = false /\ cursor_open (lambda_handler s).2 = false
  | Raise _ =>
      conn_open (lambda_handler s).2 = true /\ cursor_open (lambda_handler s).2 = true
  end.
Proof.
  destruct (decide (length (merged_series (fires s) (air_quality s)) < 5)%nat)
    as [Hlt|Hge].
  - rewrite lambda_handler_unfold, decide_True by exact Hlt.
    rewrite fallback_path_eval. simpl. auto.
  - destruct (lambda_handler_model s) as (ma & mf & m & g' & _ & _ & ->); [lia|].
    destruct (last_fire_date_of (fires s)) as [t|]; [|simpl; auto].
    destruct (seed_row (merged_series (fires s) (air_quality s)) t) as [row|e];
      [|simpl; auto].
    rewrite rollout_unfold. simpl. auto.
Qed.

(** C9, where the code departs from it.  In the run on five days of AQI
    and no fire row the handler connects once and raises; it ends with the
    cursor and the connection still open. *)
Theorem connection_left_open_on_raise :
  (lambda_handler (fresh_process [] scenario_aqi (Some []) (ticking 0))).1
  = Raise UnboundLocalError /\
  connections (lambda_handler (fresh_process [] scenario_aqi (Some []) (ticking 0))).2 = 1%nat /\
  conn_open (lambda_handler (fresh_process [] scenario_aqi (Some []) (ticking 0))).2 = true /\
  cursor_open (lambda_handler (fresh_process [] scenario_aqi (Some []) (ticking 0))).2 = true.
Proof.
  destruct (lambda_handler_model (fresh_process [] scenario_aqi (Some []) (ticking 0)))
    as (ma & mf & m & g' & _ & _ & ->).
  { simpl fires. simpl air_quality. rewrite scenario_five_days. lia. }
  repeat split.
Qed.

(** ** Values handed to the sink *)

Lemma replicate3_nonneg (x : Q) :
  Forall (Qle 0) (replicate 3 (x * fire_weight)%Q) <-> (0 <= x)%Q.
Proof.
  unfold fire_weight. simpl. split.
  - intros Hall. apply Forall_cons in Hall as [Hx _]. lra.
  - intros Hx. repeat constructor; lra.
Qed.

(** C8, as the code has it.  Every batch of values the handler hands to
    the sink is, on the model path, clamped: all values are at least 0.0.
    On the fallback path the batch is three copies of
    [last_fire * 5.0] with no clamp, so its values are at least 0.0 exactly
    when the last daily fire intensity is (0.0 when there is no fire row). *)
Theorem handed_values_nonnegative `{RandomSource} (s : world)
    (dates : list Z) (fet : Z) (vals : list Q) :
  Handed dates fet vals ∈ invocation_events s ->
  (~ (length (merged_series (fires s) (air_quality s)) < 5)%nat ->
   Forall (Qle 0) vals) /\
  ((length (merged_series (fires s) (air_quality s)) < 5)%nat ->
   vals = replicate 3 (fallback_last_fire (fire_daily_of (fires s)) * 5)%Q /\
   (Forall (Qle 0) vals <-> (0 <= fallback_last_fire (fire_daily_of (fires s)))%Q)).
Proof.
  intros Hin. unfold invocation_events in Hin.
  destruct (decide (length (merged_series (fires s) (air_quality s)) < 5)%nat)
    as [Hlt|Hge].
  - split; [intros Hn; contradiction | intros _].
    rewrite lambda_handler_unfold, decide_True in Hin by exact Hlt.
    rewrite fallback_path_eval in Hin. simpl trace in Hin.
    rewrite drop_app_length in Hin.
    apply list_elem_of_singleton in Hin. injection Hin as -> -> ->.
    split; [reflexivity | apply replicate3_nonneg].
  - split; [intros _ | intros Hlt; contradiction].
    destruct (lambda_handler_model s) as (ma & mf & m & g' & _ & _ & Heq); [lia|].
    rewrite Heq in Hin. clear Heq.
    destruct (last_fire_date_of (fires s)) as [t|].
    + destruct (seed_row (merged_series (fires s) (air_quality s)) t) as [row|e].
      * rewrite rollout_unfold in Hin. simpl trace in Hin.
        rewrite drop_app_length in Hin.
        apply elem_of_cons in Hin as [Hin|Hin]; [discriminate|].
        apply list_elem_of_singleton in Hin. injection Hin as -> -> ->.
        repeat constructor; apply py_max_ge_l.
      * simpl trace in Hin. rewrite drop_app_length in Hin.
        apply list_elem_of_singleton in Hin. discriminate.
    + simpl trace in Hin. rewrite drop_app_length in Hin.
      apply list_elem_of_singleton in Hin. discriminate.
Qed.

Lemma handed_values_nonnegative_witness :
  Forall (Qle 0) [50 # 1; 50 # 1; 50 # 1].
Proof.
  assert (Hlen : (length (merged_series
                     (fires (fresh_process scenario_fires (take 2 scenario_aqi) None (ticking 0)))
                     (air_quality (fresh_process scenario_fires (take 2 scenario_aqi) None (ticking 0))))
                  < 5)%nat) by (vm_compute; lia).
  destruct (handed_values_nonnegative
              (fresh_process scenario_fires (take 2 scenario_aqi) None (ticking 0))
              [jan1 + 4; jan1 + 5; jan1 + 6] (to_datetime (jan1 + 3))
              [50 # 1; 50 # 1; 50 # 1]) as [_ Hfb].
  - vm_compute. left.
  - destruct (Hfb Hlen) as [_ Hiff]. apply Hiff. vm_compute. discriminate.
Defined.

(** C8 as stated fails on the fallback path: with one fire detection of
    brightness -1.0 and no AQI rows, the batch handed to the sink is three
    times -5.0. *)
Lemma fallback_hands_negative_value :
  invocation_events (fresh_process [(jan1, (-1)%Q)] [] None (ticking 0))
  = [Handed [jan1 + 1; jan1 + 2; jan1 + 3] (to_datetime jan1)
       [(-5) # 1; (-5) # 1; (-5) # 1]] /\
  ~ Forall (Qle 0) [(-5) # 1; (-5) # 1; (-5) # 1].
Proof.
  split; [vm_compute; reflexivity|].
  intros Hall. apply Forall_cons in Hall as [Hneg _].
  vm_compute in Hneg. apply Hneg. reflexivity.
Qed.

(** ** Determinism *)

(** The samples a training run visits are those at the indices drawn from
    the generator: they depend on the number of epochs, the size of the
    training set and the generator state, not on the data. *)
Lemma sgd_loop_draws `{RandomSource} (epochs n : nat) (x_aqi x_fire y_next : list Q) :
  forall (m m' : SimpleLinearTimeModel) (g g' : rng),
    sgd_loop epochs n x_aqi x_fire y_next m g = Ok (m', g') ->
    m' = foldl (fun acc i => sgd_update acc (nth i x_aqi 0%Q) (nth i x_fire 0%Q)
                               (nth i y_next 0%Q))
           m (draws epochs n g).
Proof.
  induction epochs as [|ep IH]; intros m m' g g'; simpl.
  - intros [= <- _]. reflexivity.
  - destruct (randrange g n) as [i g1].
    destruct (x_aqi !! i) as [a|] eqn:Ea; [|discriminate].
    destruct (x_fire !! i) as [f|] eqn:Ef; [|discriminate].
    destruct (y_next !! i) as [y|] eqn:Ey; [|discriminate].
    intros Hloop. simpl.
    rewrite (nth_lookup_Some _ _ 0%Q _ Ea), (nth_lookup_Some _ _ 0%Q _ Ef),
      (nth_lookup_Some _ _ 0%Q _ Ey).
    apply (IH _ _ _ _ Hloop).
Qed.

Lemma fire_daily_of_nonempty (r : Z * Q) (rest : frame) :
  exists row, last (fire_daily_of (r :: rest)) = Some row.
Proof.
  destruct (series_max ((r :: rest).*1)) as [D|] eqn:E; [|discriminate].
  apply series_max_latest in E.
  eexists. apply (fire_daily_last _ _ E).
Qed.

(** C10, as the code has it.  Two runs of the handler in fresh processes
    (generator seeded with 42) on the same fire rows and the same AQI rows
    end alike: same response or same exception, same trained weights and
    same batch handed to the sink (dates, fire timestamp, values), same
    generator state afterwards, whatever the prediction table holds,
    provided there is at least one fire row or the two runs read the same
    clock (the same first and second reading of [pd.Timestamp.now()]). *)
Theorem fresh_runs_agree `{RandomSource} (fire_df aqi_df : frame)
    (table1 table2 : option (list prediction)) (t1 t2 : nat -> Z) :
  fire_df <> [] \/ (t1 0%nat = t2 0%nat /\ t1 1%nat = t2 1%nat) ->
  (lambda_handler (fresh_process fire_df aqi_df table1 t1)).1
  = (lambda_handler (fresh_process fire_df aqi_df table2 t2)).1 /\
  trace (lambda_handler (fresh_process fire_df aqi_df table1 t1)).2
  = trace (lambda_handler (fresh_process fire_df aqi_df table2 t2)).2 /\
  random_state (lambda_handler (fresh_process fire_df aqi_df table1 t1)).2
  = random_state (lambda_handler (fresh_process fire_df aqi_df table2 t2)).2.
Proof.
  intros Hclock.
  destruct (decide (length (merged_series fire_df aqi_df) < 5)%nat) as [Hlt|Hge];
    rewrite !lambda_handler_unfold;
    change (fires (fresh_process fire_df aqi_df table1 t1)) with fire_df;
    change (fires (fresh_process fire_df aqi_df table2 t2)) with fire_df;
    change (air_quality (fresh_process fire_df aqi_df table1 t1)) with aqi_df;
    change (air_quality (fresh_process fire_df aqi_df table2 t2)) with aqi_df.
  - rewrite !decide_True by exact Hlt.
    rewrite !fallback_path_eval. simpl.
    destruct fire_df as [|r rest].
    + destruct Hclock as [Hne|[H0 H1]]; [contradiction|].
      unfold later. cbn. rewrite H0, H1. auto.
    + destruct (fire_daily_of_nonempty r rest) as [row ->]. auto.
  - rewrite !decide_False by exact Hge.
    destruct (training_ready (merged_series fire_df aqi_df))
      as (ma & mf & Ha & Hf & Ht); [lia|].
    destruct (Ht module_load) as (m & g' & Htrain).
    rewrite (model_path_eval fire_df _
               (connected (fresh_process fire_df aqi_df table1 t1)) ma mf m g' Ha Hf Htrain).
    rewrite (model_path_eval fire_df _
               (connected (fresh_process fire_df aqi_df table2 t2)) ma mf m g' Ha Hf Htrain).
    destruct fire_df as [|r rest]; [simpl; auto|].
    destruct (last_fire_date_of (r :: rest)) as [t|]; [|simpl; auto].
    destruct (seed_row (merged_series (r :: rest) aqi_df) t) as [row|e]; [|simpl; auto].
    rewrite rollout_unfold. simpl. auto.
Qed.

Lemma fresh_runs_agree_witness :
  trace (lambda_handler (fresh_process scenario_fires scenario_aqi None (ticking 0))).2
  = trace (lambda_handler
             (fresh_process scenario_fires scenario_aqi (Some [Prediction 1 2 3]) (ticking 86400))).2.
Proof.
  destruct (fresh_runs_agree scenario_fires scenario_aqi None
              (Some [Prediction 1 2 3]) (ticking 0) (ticking 86400)) as (_ & Htrace & _).
  - left. discriminate.
  - exact Htrace.
Defined.

(** C10 as stated fails on the fallback path without fire rows: two fresh
    runs on the same two AQI rows, one day apart, hand different forecast
    dates to the sink. *)
Lemma fresh_runs_differ_without_fire :
  invocation_events (fresh_process [] (take 2 scenario_aqi) None (ticking 0))
  = [Handed [1; 2; 3] 1 [0%Q; 0%Q; 0%Q]] /\
  invocation_events (fresh_process [] (take 2 scenario_aqi) None (ticking 86400))
  = [Handed [2; 3; 4] 86401 [0%Q; 0%Q; 0%Q]] /\
  trace (lambda_handler (fresh_process [] (take 2 scenario_aqi) None (ticking 0))).2
  <> trace (lambda_handler (fresh_process [] (take 2 scenario_aqi) None (ticking 86400))).2.
Proof.
  split; [vm_compute; reflexivity|]. split; [vm_compute; reflexivity|].
  vm_compute. discriminate.
Qed.

(** * Further properties of the forecasting Lambda *)

(** ** Trend Model *)

(** [predict_batch] never raises: it answers for the pairs that [zip]
    forms, so its length is the shorter of the two lengths and position [i]
    holds [w0 + w1 * aqi_list[i] + w2 * fire_list[i]]. *)
Theorem predict_batch_lookup (m : SimpleLinearTimeModel) (aqi_list fire_list : list Q)
    (i : nat) :
  length (predict_batch m aqi_list fire_list)
  = Nat.min (length aqi_list) (length fire_list) /\
  predict_batch m aqi_list fire_list !! i
  = match aqi_list !! i, fire_list !! i with
    | Some a, Some f => Some (w0 (w m) + w1 (w m) * a + w2 (w m) * f)%Q
    | _, _ => None
    end.
Proof.
  unfold predict_batch. split.
  - rewrite length_fmap. apply length_zip_with.
  - rewrite list_lookup_fmap, lookup_zip_with.
    destruct (aqi_list !! i) as [a|]; [|reflexivity].
    destruct (fire_list !! i) as [f|]; reflexivity.
Qed.

(** One SGD update on the sample [(a, f, y)] keeps the rate and multiplies
    the error on that same sample by [1 - 2 * lr * (1 + a*a + f*f)]; in
    particular a sample that is already predicted exactly leaves the three
    weights where they are (as rationals). *)
Theorem sgd_update_error (m : SimpleLinearTimeModel) (a f y : Q) :
  lr (sgd_update m a f y) = lr m /\
  (predict_one (sgd_update m a f y) a f - y
   == (1 - 2 * lr m * (1 + a * a + f * f)) * (predict_one m a f - y))%Q /\
  ((predict_one m a f == y)%Q ->
   (w0 (w (sgd_update m a f y)) == w0 (w m))%Q /\
   (w1 (w (sgd_update m a f y)) == w1 (w m))%Q /\
   (w2 (w (sgd_update m a f y)) == w2 (w m))%Q).
Proof.
  split; [reflexivity|]. split.
  - unfold sgd_update, predict_one, predict_w. simpl. ring.
  - unfold sgd_update, predict_one, predict_w. simpl. intros Hy.
    repeat split; rewrite Hy; ring.
Qed.

Lemma sgd_update_error_witness :
  (w0 (w (sgd_update (Model (Weights 1 0 0) (1 # 10)) 3 4 1)) == 1)%Q.
Proof.
  apply (sgd_update_error (Model (Weights 1 0 0) (1 # 10)) 3 4 1).
  vm_compute. reflexivity.
Defined.

Lemma foldl_sgd_visit_lr (x_aqi x_fire y_next : list Q) (idxs : list nat) :
  forall m, lr (foldl (sgd_visit x_aqi x_fire y_next) m idxs) = lr m.
Proof.
  induction idxs as [|i idxs IH]; intros m; simpl; [reflexivity|].
  rewrite IH. reflexivity.
Qed.

Lemma draws_spec `{RandomSource} (epochs n : nat) :
  (0 < n)%nat ->
  forall g, length (draws epochs n g) = epochs /\
            Forall (fun i => (i < n)%nat) (draws epochs n g).
Proof.
  intros Hn. induction epochs as [|ep IH]; intros g; simpl.
  - split; [reflexivity | constructor].
  - pose proof (randrange_lt g n Hn) as Hlt.
    destruct (randrange g n) as [i g']. simpl in Hlt.
    destruct (IH g') as [Hlen Hall]. simpl.
    split; [f_equal; exact Hlen | constructor; assumption].
Qed.

Lemma sgd_loop_trajectory `{RandomSource} (epochs : nat)
    (x_aqi x_fire y_next : list Q) :
  length x_aqi = length y_next ->
  length x_fire = length y_next ->
  (0 < length y_next)%nat ->
  forall m g,
    sgd_loop epochs (length y_next) x_aqi x_fire y_next m g
    = Ok (foldl (sgd_visit x_aqi x_fire y_next) m (draws epochs (length y_next) g),
          advance epochs (length y_next) g).
Proof.
  intros Ha Hf Hn. induction epochs as [|ep IH]; intros m g; simpl.
  - reflexivity.
  - pose proof (randrange_lt g (length y_next) Hn) as Hlt.
    destruct (randrange g (length y_next)) as [i g']. simpl in Hlt.
    destruct (lookup_lt_is_Some_2 x_aqi i) as [a Ea]; [lia|].
    destruct (lookup_lt_is_Some_2 x_fire i) as [f Ef]; [lia|].
    destruct (lookup_lt_is_Some_2 y_next i) as [y Ey]; [lia|].
    rewrite Ea, Ef, Ey, IH. simpl.
    assert (Hv : sgd_visit x_aqi x_fire y_next m i = sgd_update m a f y).
    { unfold sgd_visit.
      rewrite (nth_lookup_Some _ _ 0%Q _ Ea), (nth_lookup_Some _ _ 0%Q _ Ef),
        (nth_lookup_Some _ _ 0%Q _ Ey). reflexivity. }
    rewrite Hv. reflexivity.
Qed.

(** With three lists of one positive length, [sgd_train] does not raise:
    it applies one update per epoch, each on the sample at the index
    [random.randrange(n)] returned, in the order drawn; it makes exactly
    [epochs] draws, all below [n]; it leaves the generator in the state
    after those draws and keeps the learning rate. *)
Theorem sgd_train_trajectory `{RandomSource} (m : SimpleLinearTimeModel) (g : rng)
    (x_aqi x_fire y_next : list Q) (epochs : nat) :
  length x_aqi = length y_next ->
  length x_fire = length y_next ->
  y_next <> [] ->
  sgd_train m g x_aqi x_fire y_next epochs
  = Ok (foldl (sgd_visit x_aqi x_fire y_next) m (draws epochs (length y_next) g),
        advance epochs (length y_next) g) /\
  length (draws epochs (length y_next) g) = epochs /\
  Forall (fun i => (i < length y_next)%nat) (draws epochs (length y_next) g) /\
  lr (foldl (sgd_visit x_aqi x_fire y_next) m (draws epochs (length y_next) g)) = lr m.
Proof.
  intros Ha Hf Hne.
  assert (Hn : (0 < length y_next)%nat) by (destruct y_next; [congruence | simpl; lia]).
  split; [|split; [|split]].
  - unfold sgd_train. destruct (length y_next =? 0)%nat eqn:E.
    + apply Nat.eqb_eq in E. lia.
    + apply sgd_loop_trajectory; assumption.
  - apply draws_spec, Hn.
  - apply draws_spec, Hn.
  - apply foldl_sgd_visit_lr.
Qed.

Lemma sgd_train_trajectory_witness :
  sgd_train (RS := lcg) (init_model (1 # 10)) 5 [1; 2]%Q [0; 3]%Q [1; 4]%Q 3
  = Ok (foldl (sgd_visit [1; 2]%Q [0; 3]%Q [1; 4]%Q) (init_model (1 # 10))
          (draws (RS := lcg) 3 2 5),
        advance (RS := lcg) 3 2 5).
Proof.
  apply (sgd_train_trajectory (H := lcg) (init_model (1 # 10)) 5
           [1; 2]%Q [0; 3]%Q [1; 4]%Q 3);
    [reflexivity | reflexivity | discriminate].
Defined.

(** The three lists are indexed with an index drawn below [len(y_next)]
    only: when the first draw falls outside [x_aqi] or [x_fire], the first
    epoch raises [IndexError]. *)
Theorem sgd_train_index_error `{RandomSource} (m : SimpleLinearTimeModel) (g : rng)
    (x_aqi x_fire y_next : list Q) (epochs : nat) :
  y_next <> [] ->
  (0 < epochs)%nat ->
  (length x_aqi <= (randrange g (length y_next)).1)%nat \/
  (length x_fire <= (randrange g (length y_next)).1)%nat ->
  sgd_train m g x_aqi x_fire y_next epochs = Raise IndexError.
Proof.
  intros Hne Hep Hshort. unfold sgd_train.
  destruct (length y_next =? 0)%nat eqn:E.
  { apply Nat.eqb_eq in E. destruct y_next; [congruence | discriminate]. }
  destruct epochs as [|ep]; [lia|]. simpl.
  destruct (randrange g (length y_next)) as [i g']. simpl in Hshort.
  destruct Hshort as [Hs|Hs].
  - rewrite (lookup_ge_None_2 x_aqi i) by lia. reflexivity.
  - rewrite (lookup_ge_None_2 x_fire i) by lia.
    destruct (x_aqi !! i); reflexivity.
Qed.

Lemma sgd_train_index_error_witness :
  sgd_train (RS := lcg) (init_model (1 # 10)) 5 [] [0%Q] [1%Q] 4000 = Raise IndexError.
Proof.
  apply (sgd_train_index_error (H := lcg) (init_model (1 # 10)) 5 [] [0%Q] [1%Q] 4000).
  - discriminate.
  - lia.
  - left. simpl. lia.
Defined.

(** ** Training data and scaling *)

(** From a merged frame the handler builds [len(df) - 1] samples: sample
    [i] has the AQI and fire intensity of day [i] as features and the AQI
    of day [i + 1] as target. *)
Theorem training_samples_shape (df : list day_row) :
  length (x_aqi_of df) = (length df - 1)%nat /\
  length (x_fire_of df) = (length df - 1)%nat /\
  length (y_next_of df) = (length df - 1)%nat /\
  forall (i : nat) (r r' : day_row),
    df !! i = Some r -> df !! S i = Some r' ->
    x_aqi_of df !! i = Some (aqi r) /\
    x_fire_of df !! i = Some (fire_intensity r) /\
    y_next_of df !! i = Some (aqi r').
Proof.
  split; [unfold x_aqi_of; rewrite length_take, length_fmap; lia|].
  split; [unfold x_fire_of; rewrite length_take, length_fmap; lia|].
  split; [unfold y_next_of; rewrite length_drop, length_fmap; lia|].
  apply training_lists_lookup.
Qed.

Lemma training_samples_shape_witness :
  x_aqi_of (merged_series scenario_fires scenario_aqi) !! 2%nat = Some (52 # 1) /\
  y_next_of (merged_series scenario_fires scenario_aqi) !! 2%nat = Some (60 # 1).
Proof.
  destruct (training_samples_shape (merged_series scenario_fires scenario_aqi))
    as (_ & _ & _ & Hlook).
  destruct (Hlook 2%nat (DayRow (jan1 + 2) (52 # 1) (20 # 2))
              (DayRow (jan1 + 3) (60 # 1) (10 # 1))) as (Hx & _ & Hy).
  - rewrite merged_series_scenario. reflexivity.
  - rewrite merged_series_scenario. reflexivity.
  - split; [exact Hx | exact Hy].
Defined.

Lemma fold_left_Qplus_proper (xs : list Q) :
  forall a b : Q, (a == b)%Q -> (fold_left Qplus xs a == fold_left Qplus xs b)%Q.
Proof.
  induction xs as [|x xs IH]; intros a b Hab; simpl; [exact Hab|].
  apply IH. rewrite Hab. reflexivity.
Qed.

Lemma fold_left_Qplus_scaled (xs : list Q) (k : Q) :
  forall acc : Q,
    (fold_left Qplus (scaled xs k) (acc / k) == fold_left Qplus xs acc / k)%Q.
Proof.
  induction xs as [|x xs IH]; intros acc; simpl; [reflexivity|].
  rewrite <- IH. apply fold_left_Qplus_proper. unfold Qdiv. ring.
Qed.

Lemma mean_scaled (xs : list Q) (k : Q) : (mean (scaled xs k) == mean xs / k)%Q.
Proof.
  unfold mean, py_sum, scaled at 2. rewrite length_fmap.
  assert (H0 : (fold_left Qplus (scaled xs k) 0 == fold_left Qplus xs 0 / k)%Q).
  { rewrite <- fold_left_Qplus_scaled. apply fold_left_Qplus_proper.
    unfold Qdiv. ring. }
  rewrite H0. unfold Qdiv. ring.
Qed.

Lemma scaled_by_one (xs : list Q) : Forall2 Qeq (scaled xs 1) xs.
Proof.
  unfold scaled. induction xs as [|x xs IH]; simpl; constructor; [|exact IH].
  unfold Qdiv. change (/ 1)%Q with 1%Q. ring.
Qed.

(** What dividing by the scaling factor does to a feature list: when its
    mean is above 1 the scaled list has mean 1; otherwise the factor is
    exactly 1.0 and every value stays what it was. *)
Theorem scaled_features_mean (xs : list Q) (k : Q) :
  scale_factor xs = Ok k ->
  ((1 < mean xs)%Q -> (mean (scaled xs k) == 1)%Q) /\
  ((mean xs <= 1)%Q -> k = 1%Q /\ Forall2 Qeq (scaled xs k) xs).
Proof.
  intros Hk. apply scale_factor_eq in Hk as [-> _]. split.
  - intros Hgt. rewrite mean_scaled. unfold py_max.
    destruct (Qle_bool (mean xs) 1) eqn:E.
    + apply Qle_bool_iff in E. lra.
    + field. intros E0. rewrite E0 in Hgt. lra.
  - intros Hle. apply Qle_bool_iff in Hle. unfold py_max. rewrite Hle.
    split; [reflexivity | apply scaled_by_one].
Qed.

Lemma scaled_features_mean_witness :
  (mean (scaled [50; 55; 52; 60]%Q (217 # 4)) == 1)%Q.
Proof.
  apply (scaled_features_mean [50; 55; 52; 60]%Q (217 # 4)).
  - reflexivity.
  - vm_compute. reflexivity.
Defined.

(** ** Persistence Sink, row by row *)

Lemma insert_loop_length (fet : Z) (points : list (Z * Q)) :
  forall (existing_dates : gset Z) (table : list prediction),
    (length (insert_loop existing_dates fet points table)
     <= length table + length points)%nat.
Proof.
  induction points as [|[d a] rest IH]; intros ex table; simpl; [lia|].
  case_decide.
  - specialize (IH ex table). lia.
  - specialize (IH ({[d]} ∪ ex) (table ++ [Prediction d fet a])).
    rewrite length_app in IH. simpl in IH. lia.
Qed.

Lemma insert_loop_fresh (fet : Z) (points : list (Z * Q)) :
  forall (existing_dates : gset Z) (table : list prediction),
    NoDup (points.*1) ->
    (forall d, d ∈ points.*1 -> d ∉ existing_dates) ->
    insert_loop existing_dates fet points table
    = table ++ ((fun p => Prediction p.1 fet p.2) <$> points).
Proof.
  induction points as [|[d a] rest IH]; intros ex table Hnd Hfresh; simpl.
  - rewrite app_nil_r. reflexivity.
  - rewrite fmap_cons in Hnd. simpl in Hnd. apply NoDup_cons in Hnd as [Hd Hnd].
    rewrite decide_False by (apply Hfresh; left).
    rewrite IH, <- app_assoc; [reflexivity | exact Hnd |].
    intros d' Hd' Hin. apply elem_of_union in Hin as [Hin|Hin].
    + apply elem_of_singleton in Hin as ->. contradiction.
    + apply (Hfresh d'); [right; exact Hd' | exact Hin].
Qed.

(** A batch of pairwise distinct dates, none of them stored, each with a
    value, is appended whole and in order, with the given fire timestamp. *)
Theorem insert_rows_fresh_batch (table : list prediction) (dates : list Z)
    (fet : Z) (aqi_values : list Q) :
  NoDup dates ->
  (forall d, d ∈ dates -> d ∉ prediction_date <$> table) ->
  (length dates <= length aqi_values)%nat ->
  insert_rows table dates fet aqi_values
  = table ++ ((fun p => Prediction p.1 fet p.2) <$> zip dates aqi_values) /\
  prediction_date <$> insert_rows table dates fet aqi_values
  = (prediction_date <$> table) ++ dates.
Proof.
  intros Hnd Hfresh Hlen.
  assert (Heq : insert_rows table dates fet aqi_values
                = table ++ ((fun p => Prediction p.1 fet p.2) <$> zip dates aqi_values)).
  { unfold insert_rows. apply insert_loop_fresh.
    - rewrite fst_zip by exact Hlen. exact Hnd.
    - rewrite fst_zip by exact Hlen. intros d Hd Hin.
      apply elem_of_list_to_set in Hin. exact (Hfresh d Hd Hin). }
  split; [exact Heq|].
  rewrite Heq, fmap_app, <- list_fmap_compose. f_equal.
  rewrite <- (fst_zip dates aqi_values Hlen) at 2. reflexivity.
Qed.

Lemma insert_rows_fresh_batch_witness :
  insert_rows [Prediction 1 0 10] [2; 3] 7 [40; 50; 60]%Q
  = [Prediction 1 0 10] ++ ((fun p => Prediction p.1 7 p.2) <$> zip [2; 3] [40; 50; 60]%Q).
Proof.
  apply (insert_rows_fresh_batch [Prediction 1 0 10] [2; 3] 7 [40; 50; 60]%Q).
  - apply NoDup_cons. split; [|apply NoDup_singleton].
    intros Hin. apply list_elem_of_singleton in Hin. discriminate.
  - intros d Hd Hin. simpl in Hin. apply list_elem_of_singleton in Hin. subst d.
    repeat (apply elem_of_cons in Hd as [Hd|Hd]; [discriminate|]). inversion Hd.
  - simpl. lia.
Defined.

(** The sink never updates: the rows stored for a date that is already in
    the table are the same rows after a run, whatever value the batch
    carries for that date. *)
Theorem insert_rows_never_overwrites (table : list prediction) (dates : list Z)
    (fet : Z) (aqi_values : list Q) (d : Z) :
  d ∈ prediction_date <$> table ->
  filter (fun p => prediction_date p = d) (insert_rows table dates fet aqi_values)
  = filter (fun p => prediction_date p = d) table.
Proof.
  intros Hd.
  destruct (insert_rows_appends table dates fet aqi_values)
    as (added & -> & Hrows & _ & _).
  rewrite filter_app.
  assert (Hnone : filter (fun p => prediction_date p = d) added = []).
  { destruct (filter (fun p => prediction_date p = d) added) as [|p rest] eqn:E;
      [reflexivity|].
    assert (Hp : p ∈ filter (fun p => prediction_date p = d) added)
      by (rewrite E; left).
    apply list_elem_of_filter in Hp as [Hpd Hp].
    destruct (Hrows p Hp) as [Hnot _]. rewrite Hpd in Hnot. contradiction. }
  rewrite Hnone, app_nil_r. reflexivity.
Qed.

Lemma insert_rows_never_overwrites_witness :
  filter (fun p => prediction_date p = 1)
    (insert_rows [Prediction 1 0 10] [1; 2] 7 [30; 40]%Q)
  = filter (fun p => prediction_date p = 1) [Prediction 1 0 10].
Proof.
  apply (insert_rows_never_overwrites [Prediction 1 0 10] [1; 2] 7 [30; 40]%Q 1).
  simpl. left.
Defined.

Lemma insert_loop_first (fet : Z) (d : Z) (a : Q) (post : list (Z * Q)) :
  forall (pre : list (Z * Q)) (existing_dates : gset Z) (table : list prediction),
    d ∉ existing_dates ->
    d ∉ pre.*1 ->
    filter (fun p => prediction_date p = d)
      (insert_loop existing_dates fet (pre ++ (d, a) :: post) table)
    = filter (fun p => prediction_date p = d) table ++ [Prediction d fet a].
Proof.
  induction pre as [|[d' a'] pre IH]; intros ex table Hex Hpre; simpl.
  - rewrite decide_False by exact Hex.
    destruct (insert_loop_appends fet post ({[d]} ∪ ex) (table ++ [Prediction d fet a]))
      as (added & -> & Hrows & _ & _).
    rewrite !filter_app.
    rewrite (filter_cons_True _ (Prediction d fet a) []) by reflexivity.
    rewrite filter_nil.
    assert (Hnone : filter (fun p => prediction_date p = d) added = []).
    { destruct (filter (fun p => prediction_date p = d) added) as [|p rest] eqn:E;
        [reflexivity|].
      assert (Hp : p ∈ filter (fun p => prediction_date p = d) added)
        by (rewrite E; left).
      apply list_elem_of_filter in Hp as [Hpd Hp].
      destruct (Hrows p Hp) as [Hnot _]. exfalso. apply Hnot.
      rewrite Hpd. apply elem_of_union_l, elem_of_singleton. reflexivity. }
    rewrite Hnone, app_nil_r. reflexivity.
  - rewrite fmap_cons in Hpre. simpl in Hpre.
    apply not_elem_of_cons in Hpre as [Hne Hpre].
    case_decide.
    + apply IH; assumption.
    + rewrite IH; [|intros Hin; apply elem_of_union in Hin as [Hin|Hin];
                     [apply elem_of_singleton in Hin; congruence | contradiction]
                   | exact Hpre].
      rewrite filter_app.
      rewrite (filter_cons_False _ (Prediction d' fet a') []) by (simpl; congruence).
      rewrite filter_nil, app_nil_r. reflexivity.
Qed.

(** Within one batch the first value given for a date wins: for a date
    that is not stored, the table afterwards holds exactly one row for it,
    carrying the value of its first occurrence in the batch. *)
Theorem insert_rows_first_wins (table : list prediction) (dates : list Z)
    (fet : Z) (aqi_values : list Q) (d : Z) (a : Q) (pre post : list (Z * Q)) :
  d ∉ prediction_date <$> table ->
  zip dates aqi_values = pre ++ (d, a) :: post ->
  d ∉ pre.*1 ->
  filter (fun p => prediction_date p = d) (insert_rows table dates fet aqi_values)
  = [Prediction d fet a].
Proof.
  intros Hd Hzip Hpre. unfold insert_rows. rewrite Hzip.
  rewrite insert_loop_first; [| rewrite elem_of_list_to_set; exact Hd | exact Hpre].
  destruct (filter (fun p => prediction_date p = d) table) as [|p rest] eqn:E;
    [reflexivity|].
  assert (Hp : p ∈ filter (fun p => prediction_date p = d) table) by (rewrite E; left).
  apply list_elem_of_filter in Hp as [Hpd Hp].
  exfalso. apply Hd. rewrite <- Hpd. apply list_elem_of_fmap_2. exact Hp.
Qed.

Lemma insert_rows_first_wins_witness :
  filter (fun p => prediction_date p = 2)
    (insert_rows [Prediction 1 0 10] [1; 2; 2] 7 [30; 40; 50]%Q)
  = [Prediction 2 7 40].
Proof.
  apply (insert_rows_first_wins [Prediction 1 0 10] [1; 2; 2] 7 [30; 40; 50]%Q 2 40
           [(1, 30%Q)] [(2, 50%Q)]).
  - simpl. intros Hin. apply list_elem_of_singleton in Hin. discriminate.
  - reflexivity.
  - simpl. intros Hin. apply list_elem_of_singleton in Hin. discriminate.
Defined.

(** ** What the fallback forecast stores *)

Lemma insert_rows_new_date (table : list prediction) (dates : list Z) (fet : Z)
    (aqi_values : list Q) (d : Z) (a : Q) (pre post : list (Z * Q)) :
  d ∉ prediction_date <$> table ->
  zip dates aqi_values = pre ++ (d, a) :: post ->
  d ∉ pre.*1 ->
  filter (fun p => prediction_date p = d) (insert_rows table dates fet aqi_values)
  = [Prediction d fet a].
Proof.
  intros Hd Hzip Hpre. unfold insert_rows. rewrite Hzip.
  rewrite insert_loop_first; [| rewrite elem_of_list_to_set; exact Hd | exact Hpre].
  destruct (filter (fun p => prediction_date p = d) table) as [|p rest] eqn:E;
    [reflexivity|].
  assert (Hp : p ∈ filter (fun p => prediction_date p = d) table) by (rewrite E; left).
  apply list_elem_of_filter in Hp as [Hpd Hp].
  exfalso. apply Hd. rewrite <- Hpd. apply list_elem_of_fmap_2. exact Hp.
Qed.

Lemma insert_rows_kept_date (table : list prediction) (dates : list Z) (fet : Z)
    (aqi_values : list Q) (d : Z) :
  d ∈ prediction_date <$> table ->
  filter (fun p => prediction_date p = d) (insert_rows table dates fet aqi_values)
  = filter (fun p => prediction_date p = d) table.
Proof.
  intros Hd.
  destruct (insert_rows_appends table dates fet aqi_values)
    as (added & -> & Hrows & _ & _).
  rewrite filter_app.
  destruct (filter (fun p => prediction_date p = d) added) as [|p rest] eqn:E;
    [rewrite app_nil_r; reflexivity|].
  assert (Hp : p ∈ filter (fun p => prediction_date p = d) added) by (rewrite E; left).
  apply list_elem_of_filter in Hp as [Hpd Hp].
  destruct (Hrows p Hp) as [Hnot _]. rewrite Hpd in Hnot. contradiction.
Qed.

(** C1, as the code has it.  With fewer than five merged days and a most
    recent fire day [D] whose mean brightness is [I], the handler returns
    the fallback response; the batch it hands to the sink is exactly
    (D+1, I*5.0), (D+2, I*5.0), (D+3, I*5.0) with the fire timestamp of day
    [D]; no training happens (the trace gains no [Trained] event and the
    generator is untouched); cursor and connection are closed.  What is
    stored follows the insert-if-absent rule of the sink: a forecast date
    that was not in the table gets exactly one row, the forecast point; a
    date that was already in the table keeps its rows and the forecast point
    for it is not stored; when none of the three dates was stored the table
    gains exactly the three points, in order. *)
Theorem fallback_forecast `{RandomSource} (s : world) (D : Z) :
  (length (merged_series (fires s) (air_quality s)) < 5)%nat ->
  is_latest D ((fires s).*1) ->
  let forecast_value := (mean (group_values D (fires s)) * 5)%Q in
  let old := default [] (air_quality_predictions s) in
  let stored :=
    insert_rows old [D + 1; D + 2; D + 3] (to_datetime D)
      [forecast_value; forecast_value; forecast_value] in
  lambda_handler s
  = (Ok (Response 200 FallbackStored),
     World (fires s) (air_quality s) (Some stored)
       (clock s) (S (connections s)) false false (random_state s)
       (trace s ++ [Handed [D + 1; D + 2; D + 3] (to_datetime D)
                      [forecast_value; forecast_value; forecast_value]])) /\
  (forall d, d ∈ [D + 1; D + 2; D + 3] ->
     d ∉ prediction_date <$> old ->
     filter (fun p => prediction_date p = d) stored
     = [Prediction d (to_datetime D) forecast_value]) /\
  (forall d, d ∈ prediction_date <$> old ->
     filter (fun p => prediction_date p = d) stored
     = filter (fun p => prediction_date p = d) old) /\
  ((forall d, d ∈ [D + 1; D + 2; D + 3] -> d ∉ prediction_date <$> old) ->
   stored = old ++ [Prediction (D + 1) (to_datetime D) forecast_value;
                    Prediction (D + 2) (to_datetime D) forecast_value;
                    Prediction (D + 3) (to_datetime D) forecast_value]).
Proof.
  intros Hlen HD forecast_value old stored.
  split; [|split; [|split]].
  - rewrite lambda_handler_unfold, decide_True by exact Hlen.
    rewrite fallback_path_eval. simpl.
    unfold fallback_aqi, fallback_last_fire, fallback_dates.
    rewrite (fire_daily_last _ _ HD).
    rewrite (proj2 (series_max_latest _ _) HD). simpl.
    rewrite !date_of_add_days. reflexivity.
  - intros d Hd Hnew. unfold stored.
    apply elem_of_cons in Hd as [->|Hd];
      [apply (insert_rows_new_date _ _ _ _ _ _ []
                [(D + 2, forecast_value); (D + 3, forecast_value)]);
       [exact Hnew | reflexivity | apply not_elem_of_nil]|].
    apply elem_of_cons in Hd as [->|Hd];
      [apply (insert_rows_new_date _ _ _ _ _ _ [(D + 1, forecast_value)]
                [(D + 3, forecast_value)]);
       [exact Hnew | reflexivity |];
       simpl; intros Hin; apply list_elem_of_singleton in Hin; lia|].
    apply list_elem_of_singleton in Hd as ->.
    apply (insert_rows_new_date _ _ _ _ _ _
             [(D + 1, forecast_value); (D + 2, forecast_value)] []);
      [exact Hnew | reflexivity |].
    simpl. intros Hin.
    apply elem_of_cons in Hin as [Hin|Hin]; [lia|].
    apply list_elem_of_singleton in Hin. lia.
  - intros d Hd. apply insert_rows_kept_date, Hd.
  - intros Hfresh. unfold stored, insert_rows. rewrite insert_loop_fresh.
    + reflexivity.
    + simpl. repeat (apply NoDup_cons; split); try apply NoDup_nil_2;
        intros Hin;
        repeat (apply elem_of_cons in Hin as [Hin|Hin]; [lia|]); inversion Hin.
    + simpl. intros d Hd Hin. apply elem_of_list_to_set in Hin.
      exact (Hfresh d Hd Hin).
Qed.

Lemma fallback_forecast_witness :
  (lambda_handler
     (fresh_process scenario_fires (take 2 scenario_aqi) None (ticking 0))).1
  = Ok (Response 200 FallbackStored) /\
  air_quality_predictions
    (lambda_handler
       (fresh_process scenario_fires (take 2 scenario_aqi) None (ticking 0))).2
  = Some ([] ++ [Prediction (jan1 + 3 + 1) (to_datetime (jan1 + 3))
                   (mean (group_values (jan1 + 3) scenario_fires) * 5);
                 Prediction (jan1 + 3 + 2) (to_datetime (jan1 + 3))
                   (mean (group_values (jan1 + 3) scenario_fires) * 5);
                 Prediction (jan1 + 3 + 3) (to_datetime (jan1 + 3))
                   (mean (group_values (jan1 + 3) scenario_fires) * 5)]).
Proof.
  destruct (fallback_forecast
              (fresh_process scenario_fires (take 2 scenario_aqi) None (ticking 0))
              (jan1 + 3)) as (Heq & _).
  - vm_compute. lia.
  - exact scenario_fires_latest.
  - rewrite Heq. split; reflexivity.
Defined.

(** C1 as stated fails when a forecast date is already stored: with a row
    for day D+1 in the table (value 7), the batch handed to the sink still
    carries (D+1, 50.0), but the table keeps the old row and no row
    (D+1, 50.0) is stored; only D+2 and D+3 are added. *)
Lemma fallback_forecast_skips_stored_date :
  invocation_events
    (fresh_process scenario_fires (take 2 scenario_aqi)
       (Some [Prediction (jan1 + 4) 0 7]) (ticking 0))
  = [Handed [jan1 + 4; jan1 + 5; jan1 + 6] (to_datetime (jan1 + 3))
       [50 # 1; 50 # 1; 50 # 1]] /\
  air_quality_predictions
    (lambda_handler
       (fresh_process scenario_fires (take 2 scenario_aqi)
          (Some [Prediction (jan1 + 4) 0 7]) (ticking 0))).2
  = Some [ Prediction (jan1 + 4) 0 7;
           Prediction (jan1 + 5) (to_datetime (jan1 + 3)) (50 # 1);
           Prediction (jan1 + 6) (to_datetime (jan1 + 3)) (50 # 1) ].
Proof. split; vm_compute; reflexivity. Qed.

(** ** The handler as a whole *)

Lemma date_of_add_days_any (ts i : Z) : date_of (add_days ts i) = date_of ts + i.
Proof.
  unfold date_of, add_days, seconds_per_day. apply Z.div_add. discriminate.
Qed.

Lemma insert_key_length (d : Z) (ks : list Z) :
  (length (insert_key d ks) <= S (length ks))%nat.
Proof.
  induction ks as [|k ks IH]; simpl; [lia|].
  repeat case_decide; simpl; lia.
Qed.

Lemma group_keys_length (ds : list Z) : (length (group_keys ds) <= length ds)%nat.
Proof.
  unfold group_keys. induction ds as [|d ds IH]; simpl; [lia|].
  pose proof (insert_key_length d (foldr insert_key [] ds)). lia.
Qed.

Lemma merged_series_length (fire_df aqi_df : frame) :
  (length (merged_series fire_df aqi_df) <= length aqi_df)%nat.
Proof.
  pose proof (merged_series_dates fire_df aqi_df) as Hd.
  apply Permutation_length in Hd. rewrite length_fmap in Hd. rewrite Hd.
  pose proof (group_keys_length ((aqi_dates aqi_df).*1)) as Hk.
  unfold aqi_dates in Hk. rewrite !length_fmap in Hk. exact Hk.
Qed.

(** With fewer than five AQI readings, whatever the fire rows, the
    handler takes the fallback path: it returns the fallback response,
    never trains and leaves the generator state alone. *)
Theorem few_readings_fallback `{RandomSource} (s : world) :
  (length (air_quality s) < 5)%nat ->
  (lambda_handler s).1 = Ok (Response 200 FallbackStored) /\
  random_state (lambda_handler s).2 = random_state s /\
  forall ws, Trained ws ∉ invocation_events s.
Proof.
  intros Hlen.
  pose proof (merged_series_length (fires s) (air_quality s)) as Hm.
  unfold invocation_events.
  rewrite lambda_handler_unfold, decide_True by lia.
  rewrite fallback_path_eval. simpl.
  split; [reflexivity|]. split; [reflexivity|].
  intros ws Hin. rewrite drop_app_length in Hin.
  apply list_elem_of_singleton in Hin. discriminate.
Qed.

Lemma few_readings_fallback_witness :
  (lambda_handler (fresh_process scenario_fires (take 4 scenario_aqi) None (ticking 0))).1
  = Ok (Response 200 FallbackStored).
Proof.
  apply (few_readings_fallback (fresh_process scenario_fires (take 4 scenario_aqi) None (ticking 0))).
  simpl. lia.
Defined.

(** Without any fire row the fallback path reads the clock twice: the
    forecast is flat 0.0 for the three days after the day of the first
    reading (line 109), and the second, later reading (line 116) is the fire
    timestamp stored with it. *)
Theorem fallback_without_fire `{RandomSource} (s : world) :
  fires s = [] ->
  (length (merged_series (fires s) (air_quality s)) < 5)%nat ->
  (lambda_handler s).1 = Ok (Response 200 FallbackStored) /\
  invocation_events s
  = [Handed [date_of (clock s 0%nat) + 1; date_of (clock s 0%nat) + 2;
             date_of (clock s 0%nat) + 3]
       (clock s 1%nat) [0%Q; 0%Q; 0%Q]] /\
  forall k, clock (lambda_handler s).2 k = clock s (S (S k)).
Proof.
  intros Hf Hlen. unfold invocation_events.
  rewrite lambda_handler_unfold, decide_True by exact Hlen.
  rewrite fallback_path_eval, Hf. simpl.
  rewrite drop_app_length. unfold fallback_dates. simpl.
  rewrite !date_of_add_days_any. repeat split.
Qed.

Lemma fallback_without_fire_witness :
  invocation_events (fresh_process [] (take 2 scenario_aqi) None (ticking 100000))
  = [Handed [date_of 100000 + 1; date_of 100000 + 2; date_of 100000 + 3]
       100001 [0%Q; 0%Q; 0%Q]].
Proof.
  apply (fallback_without_fire
           (fresh_process [] (take 2 scenario_aqi) None (ticking 100000))).
  - reflexivity.
  - vm_compute. lia.
Defined.

Lemma seed_row_raise (df : list day_row) (D : Z) (e : exn) :
  seed_row df (to_datetime D) = Raise e ->
  e = IndexError /\ forall r, r ∈ df -> D < date r.
Proof.
  unfold seed_row. rewrite date_of_to_datetime.
  destruct (last (filter (fun r => date r <= D) df)) as [row|] eqn:El; [discriminate|].
  intros [= <-]. split; [reflexivity|].
  intros r Hr. apply last_None in El.
  destruct (decide (date r <= D)) as [Hle|Hgt]; [|lia].
  exfalso. eapply filter_nil_not_elem_of; [exact El | exact Hle | exact Hr].
Qed.

Lemma last_fire_date_of_None (fire_df : frame) :
  last_fire_date_of fire_df = None <-> fire_df = [].
Proof.
  split; [|intros ->; reflexivity].
  destruct fire_df as [|r rest]; [reflexivity|]. intros Hn. exfalso.
  destruct (series_max ((r :: rest).*1)) as [D|] eqn:E; [|discriminate].
  apply series_max_latest in E.
  rewrite (last_fire_date_of_latest _ _ E) in Hn. discriminate.
Qed.

(** Every outcome of the handler and exactly when it occurs.  It returns
    the fallback response when the merged series has fewer than five days;
    otherwise it trains and then raises [UnboundLocalError] when there is no
    fire row, raises [IndexError] when every merged day is after the most
    recent fire day [D], and returns the forecast response for the days
    D+1, D+2, D+3 when some merged day is on or before [D].  It raises
    nothing else. *)
Theorem lambda_handler_outcomes `{RandomSource} (s : world) :
  match (lambda_handler s).1 with
  | Ok (Response code FallbackStored) =>
      code = 200 /\ (length (merged_series (fires s) (air_quality s)) < 5)%nat
  | Ok (Response code (ForecastStored forecast_dates)) =>
      code = 200 /\ (5 <= length (merged_series (fires s) (air_quality s)))%nat /\
      exists D, is_latest D ((fires s).*1) /\
                forecast_dates = [D + 1; D + 2; D + 3] /\
                exists r, r ∈ merged_series (fires s) (air_quality s) /\ date r <= D
  | Raise UnboundLocalError =>
      (5 <= length (merged_series (fires s) (air_quality s)))%nat /\ fires s = []
  | Raise IndexError =>
      (5 <= length (merged_series (fires s) (air_quality s)))%nat /\
      exists D, is_latest D ((fires s).*1) /\
                forall r, r ∈ merged_series (fires s) (air_quality s) -> D < date r
  | Raise _ => False
  end.
Proof.
  destruct (decide (length (merged_series (fires s) (air_quality s)) < 5)%nat)
    as [Hlt|Hge].
  - rewrite lambda_handler_unfold, decide_True by exact Hlt.
    rewrite fallback_path_eval. simpl. auto.
  - destruct (lambda_handler_model s) as (ma & mf & m & g' & _ & _ & ->); [lia|].
    destruct (last_fire_date_of (fires s)) as [t|] eqn:Et.
    + apply last_fire_date_of_Some in Et as (D & HD & ->).
      destruct (seed_row (merged_series (fires s) (air_quality s)) (to_datetime D))
        as [row|e] eqn:Es.
      * rewrite rollout_unfold. simpl. rewrite !date_of_add_days.
        split; [reflexivity|]. split; [lia|]. exists D.
        split; [exact HD|]. split; [reflexivity|].
        unfold seed_row in Es. rewrite date_of_to_datetime in Es.
        destruct (last (filter (fun r => date r <= D)
                          (merged_series (fires s) (air_quality s))))
          as [row'|] eqn:El; [|discriminate].
        apply last_Some_elem_of, list_elem_of_filter in El as [Hle Hin].
        exists row'. auto.
      * apply seed_row_raise in Es as [-> Hall]. simpl.
        split; [lia|]. exists D. auto.
    + simpl. split; [lia|]. apply last_fire_date_of_None, Et.
Qed.

(** The handler only ever appends to the prediction table.  When it
    returns, the table is the one it found (created empty if it was
    missing) followed by at most three new rows, none for a date that was
    already stored; when it raises, the table is untouched. *)
Theorem lambda_handler_appends_only `{RandomSource} (s : world) :
  match (lambda_handler s).1 with
  | Ok _ =>
      exists added,
        air_quality_predictions (lambda_handler s).2
        = Some (default [] (air_quality_predictions s) ++ added) /\
        (length added <= 3)%nat /\
        forall p, p ∈ added ->
          prediction_date p ∉ prediction_date <$> default [] (air_quality_predictions s)
  | Raise _ =>
      air_quality_predictions (lambda_handler s).2 = air_quality_predictions s
  end.
Proof.
  assert (Hsink : forall (d1 d2 d3 : Z) (fet : Z) (v1 v2 v3 : Q),
    exists added,
      Some (insert_rows (default [] (air_quality_predictions s))
              [d1; d2; d3] fet [v1; v2; v3])
      = Some (default [] (air_quality_predictions s) ++ added) /\
      (length added <= 3)%nat /\
      forall p, p ∈ added ->
        prediction_date p ∉ prediction_date <$> default [] (air_quality_predictions s)).
  { intros d1 d2 d3 fet v1 v2 v3.
    pose proof (insert_loop_length fet (zip [d1; d2; d3] [v1; v2; v3])
                  (list_to_set (prediction_date <$> default [] (air_quality_predictions s)))
                  (default [] (air_quality_predictions s))) as Hlen.
    fold (insert_rows (default [] (air_quality_predictions s)) [d1; d2; d3] fet
            [v1; v2; v3]) in Hlen.
    destruct (insert_rows_appends (default [] (air_quality_predictions s))
                [d1; d2; d3] fet [v1; v2; v3]) as (added & Heq & Hrows & _ & _).
    exists added. rewrite Heq in Hlen |- *. rewrite length_app in Hlen. simpl in Hlen.
    split; [reflexivity|]. split; [lia|].
    intros p Hp. apply (Hrows p Hp). }
  destruct (decide (length (merged_series (fires s) (air_quality s)) < 5)%nat)
    as [Hlt|Hge].
  - rewrite lambda_handler_unfold, decide_True by exact Hlt.
    rewrite fallback_path_eval. simpl. apply Hsink.
  - destruct (lambda_handler_model s) as (ma & mf & m & g' & _ & _ & ->); [lia|].
    destruct (last_fire_date_of (fires s)) as [t|]; [|reflexivity].
    destruct (seed_row (merged_series (fires s) (air_quality s)) t) as [row|e];
      [|reflexivity].
    rewrite rollout_unfold. simpl. apply Hsink.
Qed.

Lemma seed_selection_when_defined_witness :
  exists (row : day_row) (mean_aqi mean_fire : Q) (trained : weights),
    date row <= jan1 + 3 /\
    invocation_events (fresh_process scenario_fires scenario_aqi None (ticking 0))
    = [Trained trained;
       Handed [jan1 + 3 + 1; jan1 + 3 + 2; jan1 + 3 + 3] (to_datetime (jan1 + 3))
         (rollout (unscale mean_aqi mean_fire trained) (to_datetime (jan1 + 3))
            (aqi row) (fire_intensity row)).1.2].
Proof.
  destruct (seed_selection_when_defined
              (fresh_process scenario_fires scenario_aqi None (ticking 0)) (jan1 + 3))
    as (row & ma & mf & tr & _ & Hle & _ & Hev).
  - simpl fires. simpl air_quality. rewrite merged_series_scenario. simpl. lia.
  - exact scenario_fires_latest.
  - exists (DayRow (jan1 + 3) (60 # 1) (10 # 1)). simpl fires. simpl air_quality.
    rewrite merged_series_scenario. split; [do 3 right; left | simpl; lia].
  - exists row, ma, mf, tr. split; [exact Hle | exact Hev].
Defined.

(** * Properties of the earthquake ingestion Lambda *)

Section EarthquakeFacts.

Import Earthquakes.

Variable format_float : Q -> string.

Local Abbreviation row_of := (Earthquakes.row_of format_float).
Local Abbreviation record_of := (Earthquakes.record_of format_float).
Local Abbreviation insert_events := (Earthquakes.insert_events format_float).
Local Abbreviation quake_handler := (Earthquakes.lambda_handler format_float).
Local Abbreviation insertable := (Earthquakes.insertable format_float).

Lemma in_box_bounds (lat lon : Q) :
  in_box lat lon = true ->
  (LAT_MIN <= lat)%Q /\ (lat <= LAT_MAX)%Q /\ (LON_MIN <= lon)%Q /\ (lon <= LON_MAX)%Q.
Proof.
  unfold in_box. rewrite !andb_true_iff, !Qle_bool_iff. tauto.
Qed.

Lemma record_of_coordinates (ev : event) (lat lon : Q) (q : quake) :
  record_of ev lat lon = Some q -> latitude q = lat /\ longitude q = lon.
Proof.
  unfold Earthquakes.record_of.
  destruct (magnitude_value ev), (place_of (description ev)), (publicID ev),
    (depth_value ev), (time_value ev); try discriminate.
  intros [= <-]. split; reflexivity.
Qed.

Lemma insert_events_box (f : feed) (evs : list event) :
  forall table,
  exists added,
    (insert_events f evs table).2 = table ++ added /\
    forall q, q ∈ added ->
      in_box (latitude q) (longitude q) = true /\ insert_ok f q = true /\
      exists ev, ev ∈ evs /\ row_of ev = Some q.
Proof.
  induction evs as [|ev rest IH]; intros table; simpl.
  - exists []. rewrite app_nil_r. split; [reflexivity|]. intros q Hq. inversion Hq.
  - assert (Hskip : exists added,
              (insert_events f rest table).2 = table ++ added /\
              forall q, q ∈ added ->
                in_box (latitude q) (longitude q) = true /\ insert_ok f q = true /\
                exists ev', ev' ∈ ev :: rest /\ row_of ev' = Some q).
    { destruct (IH table) as (added & Heq & Hall). exists added.
      split; [exact Heq|]. intros q Hq.
      destruct (Hall q Hq) as (H1 & H2 & ev' & Hin & Hrow).
      split; [exact H1|]. split; [exact H2|]. exists ev'. split; [right|]; assumption. }
    assert (Hstop : exists added : list quake,
              table = table ++ added /\
              forall q, q ∈ added ->
                in_box (latitude q) (longitude q) = true /\ insert_ok f q = true /\
                exists ev', ev' ∈ ev :: rest /\ row_of ev' = Some q).
    { exists []. rewrite app_nil_r. split; [reflexivity|]. intros q Hq. inversion Hq. }
    destruct (latitude_value ev) as [lat|] eqn:Elat; [|exact Hskip].
    destruct (longitude_value ev) as [lon|] eqn:Elon; [|exact Hskip].
    destruct (in_box lat lon) eqn:Ebox; [|exact Hskip].
    destruct (record_of ev lat lon) as [row|] eqn:Erow; [|exact Hstop].
    destruct (insert_ok f row) eqn:Eins; [|exact Hstop].
    destruct (IH (table ++ [row])) as (added & Heq & Hall).
    exists (row :: added). split; [rewrite Heq, <- app_assoc; reflexivity|].
    intros q Hq. apply elem_of_cons in Hq as [->|Hq].
    + destruct (record_of_coordinates _ _ _ _ Erow) as [-> ->].
      split; [exact Ebox|]. split; [exact Eins|].
      exists ev. split; [left|]. unfold Earthquakes.row_of. rewrite Elat, Elon. exact Erow.
    + destruct (Hall q Hq) as (H1 & H2 & ev' & Hin & Hrow).
      split; [exact H1|]. split; [exact H2|]. exists ev'. split; [right|]; assumption.
Qed.

(** Whatever the feed and the outcome, the handler only appends to the
    table, and every row it appends lies inside the Tokyo bounding box and
    comes from an event of the feed. *)
Theorem quake_rows_in_box (f : feed) (s : store) :
  exists added,
    default [] (earthquakes (quake_handler f s).2)
    = default [] (earthquakes s) ++ added /\
    forall q, q ∈ added ->
      (33 <= latitude q)%Q /\ (latitude q <= 37)%Q /\
      (137 <= longitude q)%Q /\ (longitude q <= 141)%Q /\
      exists evs ev, events f = Some evs /\ ev ∈ evs /\ row_of ev = Some q.
Proof.
  assert (Hnone : exists added : list quake,
            default [] (earthquakes s) = default [] (earthquakes s) ++ added /\
            forall q, q ∈ added ->
              (33 <= latitude q)%Q /\ (latitude q <= 37)%Q /\
              (137 <= longitude q)%Q /\ (longitude q <= 141)%Q /\
              exists evs ev, events f = Some evs /\ ev ∈ evs /\ row_of ev = Some q).
  { exists []. rewrite app_nil_r. split; [reflexivity|]. intros q Hq. inversion Hq. }
  unfold Earthquakes.lambda_handler.
  destruct (connect_ok f); simpl; [|exact Hnone].
  destruct (cursor_ok f); simpl; [|exact Hnone].
  destruct (create_ok f); simpl; [|exact Hnone].
  destruct (get_ok f); simpl; [|exact Hnone].
  destruct (bool_decide (status_code f = 200)); simpl; [|exact Hnone].
  destruct (put_ok f); simpl; [|exact Hnone].
  destruct (events f) as [evs|] eqn:Eev; simpl; [|exact Hnone].
  destruct (insert_events_box f evs (default [] (earthquakes s)))
    as (added & Heq & Hall).
  destruct (insert_events f evs (default [] (earthquakes s))) as [fin table'].
  simpl in Heq. subst table'.
  assert (Hres : exists added' : list quake,
            default [] (earthquakes s) ++ added = default [] (earthquakes s) ++ added' /\
            forall q, q ∈ added' ->
              (33 <= latitude q)%Q /\ (latitude q <= 37)%Q /\
              (137 <= longitude q)%Q /\ (longitude q <= 141)%Q /\
              exists evs' ev, Some evs = Some evs' /\ ev ∈ evs' /\ row_of ev = Some q).
  { exists added. split; [reflexivity|]. intros q Hq.
    destruct (Hall q Hq) as (Hbox & _ & ev & Hin & Hrow).
    apply in_box_bounds in Hbox as (H1 & H2 & H3 & H4).
    repeat (split; [assumption|]). exists evs, ev. auto. }
  destruct fin; exact Hres.
Qed.

(** What happens to the connection.  If [connect] raises, nothing is
    touched.  If [connect] returns and [conn.cursor()] raises, the handler
    reports an error and leaves the connection open.  Once both have
    returned, every path, failing or not, closes cursor and connection. *)
Theorem quake_connection (f : feed) (s : store) :
  match connect_ok f, cursor_ok f with
  | false, _ => quake_handler f s = (error, s)
  | true, false =>
      (quake_handler f s).1 = error /\ conn_open (quake_handler f s).2 = true
  | true, true =>
      conn_open (quake_handler f s).2 = false /\
      cursor_open (quake_handler f s).2 = false
  end.
Proof.
  unfold Earthquakes.lambda_handler.
  destruct (connect_ok f); simpl; [|reflexivity].
  destruct (cursor_ok f); simpl; [|split; reflexivity].
  destruct (create_ok f); simpl; [|split; reflexivity].
  destruct (get_ok f); simpl; [|split; reflexivity].
  destruct (bool_decide (status_code f = 200)); simpl; [|split; reflexivity].
  destruct (put_ok f); simpl; [|split; reflexivity].
  destruct (events f) as [evs|]; simpl; [|split; reflexivity].
  destruct (insert_events f evs (default [] (earthquakes s))) as [[] table'];
    split; reflexivity.
Qed.

Lemma insert_events_complete (f : feed) (evs : list event) :
  forall table,
    (forall ev, ev ∈ evs -> insertable f ev) ->
    insert_events f evs table
    = (true, table ++ omap row_of (filter (fun ev => located_in_box ev = true) evs)).
Proof.
  induction evs as [|ev rest IH]; intros table Hall.
  - simpl. rewrite app_nil_r. reflexivity.
  - assert (Hrest : forall ev', ev' ∈ rest -> insertable f ev')
      by (intros ev' Hin; apply Hall; right; exact Hin).
    assert (Hev : insertable f ev) by (apply Hall; left).
    unfold insertable, located_in_box, Earthquakes.row_of in Hev.
    simpl insert_events.
    destruct (latitude_value ev) as [lat|] eqn:Elat;
      [|rewrite filter_cons_False
          by (unfold located_in_box; rewrite Elat; discriminate);
        apply IH, Hrest].
    destruct (longitude_value ev) as [lon|] eqn:Elon;
      [|rewrite filter_cons_False
          by (unfold located_in_box; rewrite Elat, Elon; discriminate);
        apply IH, Hrest].
    destruct (in_box lat lon) eqn:Ebox;
      [|rewrite filter_cons_False
          by (unfold located_in_box; rewrite Elat, Elon, Ebox; discriminate);
        apply IH, Hrest].
    destruct (Hev eq_refl) as (q & Hrow & Hins). rewrite Hrow, Hins.
    rewrite filter_cons_True
      by (unfold located_in_box; rewrite Elat, Elon; exact Ebox).
    rewrite (IH _ Hrest). simpl omap.
    unfold Earthquakes.row_of at 2. rewrite Elat, Elon, Hrow, <- app_assoc.
    reflexivity.
Qed.

Lemma insert_events_finished (f : feed) (evs : list event) :
  forall table,
    (insert_events f evs table).1 = true ->
    forall ev, ev ∈ evs -> insertable f ev.
Proof.
  induction evs as [|ev rest IH]; intros table Hfin ev' Hin; [inversion Hin|].
  simpl in Hfin. unfold insertable, located_in_box, Earthquakes.row_of.
  apply elem_of_cons in Hin as [->|Hin].
  - destruct (latitude_value ev) as [lat|]; [|discriminate].
    destruct (longitude_value ev) as [lon|]; [|discriminate].
    intros Hbox. rewrite Hbox in Hfin.
    destruct (record_of ev lat lon) as [row|]; [|discriminate].
    destruct (insert_ok f row) eqn:Eins; [|discriminate].
    exists row. auto.
  - destruct (latitude_value ev) as [lat|]; [|exact (IH _ Hfin ev' Hin)].
    destruct (longitude_value ev) as [lon|]; [|exact (IH _ Hfin ev' Hin)].
    destruct (in_box lat lon); [|exact (IH _ Hfin ev' Hin)].
    destruct (record_of ev lat lon) as [row|]; [|discriminate].
    destruct (insert_ok f row); [|discriminate].
    exact (IH _ Hfin ev' Hin).
Qed.


(** A feed whose services all answer and whose events inside the box are
    all insertable runs to the end, on any store. *)
Lemma quake_handler_run (f : feed) (s : store) (evs : list event) :
  reachable f ->
  events f = Some evs ->
  (forall ev, ev ∈ evs -> insertable f ev) ->
  quake_handler f s
  = (success,
     Store (Some (default [] (earthquakes s)
                  ++ omap row_of (filter (fun ev => located_in_box ev = true) evs)))
           false false (S (uploads s))).
Proof.
  intros (H1 & H2 & H3 & H4 & H5 & H6) Hev Hall.
  unfold Earthquakes.lambda_handler.
  rewrite H1, H2, H3, H4, H6, Hev. simpl.
  rewrite bool_decide_eq_true_2 by exact H5. simpl.
  rewrite (insert_events_complete f evs _ Hall). reflexivity.
Qed.

(** Success is reported on no other feed. *)
Lemma quake_success_inv (f : feed) (s : store) :
  (quake_handler f s).1 = success ->
  reachable f /\
  exists evs, events f = Some evs /\ forall ev, ev ∈ evs -> insertable f ev.
Proof.
  unfold reachable, Earthquakes.lambda_handler.
  destruct (connect_ok f); simpl; [|discriminate].
  destruct (cursor_ok f); simpl; [|discriminate].
  destruct (create_ok f); simpl; [|discriminate].
  destruct (get_ok f); simpl; [|discriminate].
  destruct (bool_decide (status_code f = 200)) eqn:Est; simpl; [|discriminate].
  apply bool_decide_eq_true in Est.
  destruct (put_ok f); simpl; [|discriminate].
  destruct (events f) as [evs|] eqn:Eev; simpl; [|discriminate].
  destruct (insert_events f evs (default [] (earthquakes s))) as [fin table'] eqn:Erun.
  destruct fin; simpl; [intros _|discriminate].
  split; [repeat split; assumption|]. exists evs. split; [reflexivity|].
  apply (insert_events_finished f evs (default [] (earthquakes s))).
  rewrite Erun. reflexivity.
Qed.



(** The ingestion does not deduplicate: a second successful run on the
    same feed appends the same rows once more. *)
Theorem quake_twice_duplicates (f : feed) (s : store) :
  (quake_handler f s).1 = success ->
  exists evs,
    events f = Some evs /\
    (quake_handler f (quake_handler f s).2).1 = success /\
    earthquakes (quake_handler f (quake_handler f s).2).2
    = Some (default [] (earthquakes s)
            ++ omap row_of (filter (fun ev => located_in_box ev = true) evs)
            ++ omap row_of (filter (fun ev => located_in_box ev = true) evs)).
Proof.
  intros Hs. apply quake_success_inv in Hs as [Hr (evs & Hev & Hall)].
  exists evs. split; [exact Hev|].
  rewrite (quake_handler_run f s evs Hr Hev Hall). simpl.
  rewrite (quake_handler_run f _ evs Hr Hev Hall). simpl.
  rewrite <- app_assoc. split; reflexivity.
Qed.

End EarthquakeFacts.

(** The sample feed, run on an empty store. *)
Example sample_feed_run :
  (Earthquakes.lambda_handler (fun _ => "4.5"%string) Earthquakes.sample_feed
     Earthquakes.empty_store).1 = Earthquakes.success /\
  Earthquakes.event_id <$>
    default [] (Earthquakes.earthquakes
      (Earthquakes.lambda_handler (fun _ => "4.5"%string) Earthquakes.sample_feed
         Earthquakes.empty_store).2)
  = ["quakeml:tokyo1"%string].
Proof. vm_compute. split; reflexivity. Qed.

(** An empty [<text/>] gives the place [None] and the title "M... - None";
    an empty [<description/>] inside the box ends the run with an error. *)
Example empty_text_run :
  (Earthquakes.title <$>
     default [] (Earthquakes.earthquakes
       (Earthquakes.lambda_handler (fun _ => "4.0"%string)
          (Earthquakes.Feed true true true true 200 true
             (Some [Earthquakes.Event (Some 35%Q) (Some 139%Q) (Some (4 # 1))
                      (Earthquakes.DescriptionDict Earthquakes.TextNull)
                      (Some 1767225900) (Some "quakeml:tokyo3"%string)
                      (Some (15 # 1))])
             (fun _ => true))
          Earthquakes.empty_store).2))
  = ["M4.0 - None"%string] /\
  Earthquakes.lambda_handler (fun _ => "4.0"%string)
    (Earthquakes.Feed true true true true 200 true
       (Some [Earthquakes.empty_description_event]) (fun _ => true))
    Earthquakes.empty_store
  = (Earthquakes.error, Earthquakes.Store (Some []) false false 1).
Proof. vm_compute. split; reflexivity. Qed.

Lemma quake_rows_in_box_witness :
  (33 <= 357 # 10)%Q /\ (357 # 10 <= 37)%Q.
Proof.
  destruct (quake_rows_in_box (fun _ => "4.5"%string)
              Earthquakes.sample_feed Earthquakes.empty_store) as (added & Heq & Hall).
  vm_compute in Heq. subst added.
  destruct (Hall _ (list_elem_of_here _ _)) as (H1 & H2 & _).
  split; [exact H1 | exact H2].
Defined.



Lemma quake_twice_duplicates_witness :
  Earthquakes.event_id <$>
    default [] (Earthquakes.earthquakes
      (Earthquakes.lambda_handler (fun _ => "4.5"%string) Earthquakes.sample_feed
         (Earthquakes.lambda_handler (fun _ => "4.5"%string) Earthquakes.sample_feed
            Earthquakes.empty_store).2).2)
  = ["quakeml:tokyo1"; "quakeml:tokyo1"]%string.
Proof.
  destruct (quake_twice_duplicates (fun _ => "4.5"%string) Earthquakes.sample_feed
              Earthquakes.empty_store) as (evs & Hev & _ & Htab).
  - vm_compute. reflexivity.
  - injection Hev as <-. rewrite Htab. vm_compute. reflexivity.
Defined.
